(** * Speed-Tracker: the measurement server, its result store and the
      measurement client, embedded from [src/server.ts] and the React
      component of the client.

    Numbers of the client are JavaScript numbers, that is IEEE 754 binary64
    values: they are modelled by Rocq's primitive floats, so that a division
    by a zero duration yields an infinity or a NaN exactly as the browser
    computes it.  The store is the SQLite table [speedtests]; a request body
    is the object produced by the JSON body parser. *)

From Stdlib Require Import ZArith Bool Lia.
From Stdlib Require Import PrimFloat FloatOps SpecFloat.
From stdpp Require Import base gmap strings list sorting.

Open Scope Z_scope.

(** ** Exceptions *)

(** What a call of the database driver, or an awaited promise, can throw. *)
Inductive exn :=
| DuplicateColumn      (* ALTER TABLE: duplicate column name: upload_mbps *)
| NoSuchTable          (* no such table: speedtests *)
| BindTypeError        (* SQLite3 can only bind numbers, strings, bigints, buffers, and null *)
| DatabaseFull         (* SQLITE_FULL: the AUTOINCREMENT sequence is exhausted *)
| NetworkError         (* fetch / body stream rejected *)
| Error (msg : string) (* throw new Error(msg) *).

Inductive outcome (A : Type) :=
| Ok (a : A)
| Raise (e : exn).
Arguments Ok {A} a.
Arguments Raise {A} e.

Definition obind {A B} (m : outcome A) (f : A -> outcome B) : outcome B :=
  match m with
  | Ok a => f a
  | Raise e => Raise e
  end.

(** [try m catch h]. *)
Definition ocatch {A} (m : outcome A) (h : exn -> outcome A) : outcome A :=
  match m with
  | Ok a => Ok a
  | Raise e => h e
  end.

(** ** Data model *)

(** A value bound to a statement or held by a REAL column: NULL, a double,
    or a text.  A column holds as text only a text that spells no number
    ([real_affinity]). *)
Inductive cell :=
| SqlNull
| SqlReal (x : float)
| SqlText (s : string).

(** A row of [speedtests], the object [SELECT *] yields.  [timestamp] is the
    UTC second at which CURRENT_TIMESTAMP was read: SQLite stores it as the
    fixed-width text YYYY-MM-DD HH:MM:SS, whose text order is the order of
    the seconds. *)
Record SpeedTest := mkSpeedTest {
  id : Z;
  timestamp : Z;
  download_mbps : cell;
  upload_mbps : cell;
  ping_ms : cell
}.

(** A row of the table of an older installation, which had no upload column. *)
Record OldSpeedTest := mkOldSpeedTest {
  old_id : Z;
  old_timestamp : Z;
  old_download_mbps : cell;
  old_ping_ms : cell
}.

(** The table: its rows in rowid order, and the entry of [sqlite_sequence]
    that AUTOINCREMENT keeps for it (the largest rowid ever handed out). *)
Record table := mkTable {
  rows : list SpeedTest;
  seq : Z
}.

(** The database file [speedtests.db] as the server finds it at start-up. *)
Inductive database :=
| NoTable
| OldTable (old_rows : list OldSpeedTest) (old_seq : Z)
| Speedtests (t : table).

(** ** Schema initialisation (server.ts, lines 9-23) *)

(** CREATE TABLE IF NOT EXISTS speedtests (...) *)
Definition create_table_if_not_exists (d : database) : outcome database :=
  match d with
  | NoTable => Ok (Speedtests {| rows := []; seq := 0 |})
  | _ => Ok d
  end.

Definition add_upload_column (r : OldSpeedTest) : SpeedTest :=
  {| id := old_id r;
     timestamp := old_timestamp r;
     download_mbps := old_download_mbps r;
     upload_mbps := SqlNull;
     ping_ms := old_ping_ms r |}.

(** ALTER TABLE speedtests ADD COLUMN upload_mbps REAL *)
Definition alter_table_add_upload_mbps (d : database) : outcome database :=
  match d with
  | NoTable => Raise NoSuchTable
  | OldTable rs s => Ok (Speedtests {| rows := add_upload_column <$> rs; seq := s |})
  | Speedtests _ => Raise DuplicateColumn
  end.

(** The module-level initialisation: the CREATE statement, then the ALTER
    statement inside try/catch with an empty handler. *)
Definition init_schema (d : database) : outcome database :=
  obind (create_table_if_not_exists d) (fun d1 =>
  ocatch (alter_table_add_upload_mbps d1) (fun _ => Ok d1)).

(** ** Requests and responses *)

(** A metric of a request body after JSON parsing.  A missing key is the
    absence of the key in the body map.  Arrays and objects are left out of
    the model: the driver spreads them into parameter lists of their own. *)
Inductive jsval :=
| JNull
| JBool (b : bool)
| JNum (x : float)
| JStr (s : string).

Inductive request :=
| GetSpeedtests
| PostSpeedtests (body : gmap string jsval)
| DeleteSpeedtests
| GetPayload
| PostUpload (size : Z)
| GetPing.

Inductive content :=
| JsonRows (l : list SpeedTest)   (* res.json(tests) *)
| JsonRow (r : SpeedTest)         (* res.json(newTest) *)
| JsonNothing                     (* res.json(undefined) *)
| JsonSuccess                     (* res.json({ success: true }) *)
| Bytes (size : Z)                (* res.send(payload) *)
| Text (s : string)               (* res.send('ok'), res.send('pong') *)
| ErrorPage (e : exn)             (* the framework's answer to a thrown error *).

Record response := mkResponse {
  status : Z;
  cache_control : option string;
  content_of : content
}.

Definition json (c : content) : response :=
  {| status := 200; cache_control := None; content_of := c |}.

Definition no_cache : string := "no-store, no-cache, must-revalidate, private".

Definition send (c : content) : response :=
  {| status := 200; cache_control := Some no_cache; content_of := c |}.

(** An exception that leaves a route handler reaches the framework's default
    error handler, which answers 500 for an error that carries no status. *)
Definition internal_error (e : exn) : response :=
  {| status := 500; cache_control := None; content_of := ErrorPage e |}.

Definition ok (r : response) : bool := (200 <=? status r) && (status r <=? 299).

Definition client_error (r : response) : bool := (400 <=? status r) && (status r <=? 499).

(** ** The persistence API (server.ts, lines 33-51) *)

(** ORDER BY timestamp DESC: SQLite scans the table in rowid order and keys
    its sorter by (timestamp descending, arrival number), so rows of equal
    timestamp stay in rowid order. *)
Fixpoint insert_by_timestamp_desc (r : SpeedTest) (l : list SpeedTest) : list SpeedTest :=
  match l with
  | [] => [r]
  | x :: l' =>
      if timestamp x <=? timestamp r then r :: l
      else x :: insert_by_timestamp_desc r l'
  end.

Definition order_by_timestamp_desc (l : list SpeedTest) : list SpeedTest :=
  foldr insert_by_timestamp_desc [] l.

(** SELECT * FROM speedtests ORDER BY timestamp DESC LIMIT 100 *)
Definition select_recent (t : table) : list SpeedTest :=
  take 100 (order_by_timestamp_desc (rows t)).

Definition get_speedtests (t : table) : response * table :=
  (json (JsonRows (select_recent t)), t).

(** How the driver binds one argument of [stmt.run]: [undefined] and [null]
    become NULL, a number a double, a string text; a boolean is refused.
    What the column then stores is [real_affinity] of the value bound. *)
Definition bind_value (v : option jsval) : outcome cell :=
  match v with
  | None => Ok SqlNull
  | Some JNull => Ok SqlNull
  | Some (JNum x) => Ok (SqlReal x)
  | Some (JStr s) => Ok (SqlText s)
  | Some (JBool _) => Raise BindTypeError
  end.

(** *** Text in a REAL column *)

(** SQLite's [sqlite3AtoF], by which a REAL column decides whether a text
    spells a number: white space, a sign, digits, a point and digits, an
    exponent, white space; at least one digit, and digits in the exponent
    when there is one. *)
Definition is_space (c : Ascii.ascii) : bool :=
  match Ascii.N_of_ascii c with
  | 9%N | 10%N | 11%N | 12%N | 13%N | 32%N => true
  | _ => false
  end.

Definition digit_of (c : Ascii.ascii) : option Z :=
  let n := Z.of_N (Ascii.N_of_ascii c) in
  if (48 <=? n) && (n <=? 57) then Some (n - 48) else None.

Fixpoint skip_spaces (z : list Ascii.ascii) : list Ascii.ascii :=
  match z with
  | c :: z' => if is_space c then skip_spaces z' else z
  | [] => []
  end.

(** Whether [c] is the character of code [n]. *)
Definition is_char (n : N) (c : Ascii.ascii) : bool := (Ascii.N_of_ascii c =? n)%N.

(** A minus sign (45) or a plus sign (43). *)
Definition take_sign (z : list Ascii.ascii) : bool * list Ascii.ascii :=
  match z with
  | c :: z' =>
      if is_char 45 c then (true, z')
      else if is_char 43 c then (false, z')
      else (false, z)
  | [] => (false, [])
  end.

(** The significand holds no more digits than fit a 64-bit integer. *)
Definition significand_limit : Z := (2 ^ 63 - 1 - 9) / 10.

(** The digits before the point: once the significand is full, each further
    digit only raises the exponent [d]. *)
Fixpoint integer_digits (z : list Ascii.ascii) (s d nDigit : Z) : Z * Z * Z * list Ascii.ascii :=
  match z with
  | c :: z' =>
      match digit_of c with
      | Some n =>
          if s <? significand_limit
          then integer_digits z' (s * 10 + n) d (nDigit + 1)
          else integer_digits z' s (d + 1) nDigit
      | None => (s, d, nDigit, z)
      end
  | [] => (s, d, nDigit, [])
  end.

(** The digits after the point: once the significand is full, they are
    dropped. *)
Fixpoint fraction_digits (z : list Ascii.ascii) (s d nDigit : Z) : Z * Z * Z * list Ascii.ascii :=
  match z with
  | c :: z' =>
      match digit_of c with
      | Some n =>
          if s <? significand_limit
          then fraction_digits z' (s * 10 + n) (d - 1) (nDigit + 1)
          else fraction_digits z' s d nDigit
      | None => (s, d, nDigit, z)
      end
  | [] => (s, d, nDigit, [])
  end.

Fixpoint exponent_digits (z : list Ascii.ascii) (e : Z) (eValid : bool) : Z * bool * list Ascii.ascii :=
  match z with
  | c :: z' =>
      match digit_of c with
      | Some n => exponent_digits z' (if e <? 10000 then e * 10 + n else 10000) true
      | None => (e, eValid, z)
      end
  | [] => (e, eValid, [])
  end.

(** The double nearest to [s * 10^e], with the sign; a zero significand
    gives zero. *)
Definition decimal (neg : bool) (s e : Z) : float :=
  match s with
  | Z.pos m =>
      if 0 <=? e
      then SF2Prim (binary_normalize prec emax
                      ((if neg then -1 else 1) * (Z.pos m * 10 ^ e)) 0 false)
      else SF2Prim (SFdiv prec emax (S754_finite neg m 0)
                      (S754_finite false (Z.to_pos (10 ^ (- e))) 0))
  | _ => zero
  end.

(** The number a text spells, when it spells one. *)
Definition sqlite3AtoF (text : string) : option float :=
  let z := skip_spaces (String.list_ascii_of_string text) in
  let '(neg, z) := take_sign z in
  let '(s, d, nDigit, z) := integer_digits z 0 0 0 in
  let '(s, d, nDigit, z) :=
    match z with
    | c :: z' =>
        if is_char 46 c (* the point *) then fraction_digits z' s d nDigit
        else (s, d, nDigit, z)
    | [] => (s, d, nDigit, [])
    end in
  let '(e, eValid, z) :=
    match z with
    | c :: z' =>
        if is_char 101 c || is_char 69 c (* e or E *) then
          let '(eneg, z'') := take_sign z' in
          let '(e, eValid, z''') := exponent_digits z'' 0 false in
          (if eneg then - e else e, eValid, z''')
        else (0, true, z)
    | [] => (0, true, [])
    end in
  match skip_spaces z with
  | [] => if (0 <? nDigit) && eValid then Some (decimal neg s (d + e)) else None
  | _ => None
  end.

(** What a REAL column stores of a value bound, as it is read back: a text
    that spells a number becomes that number, any other text stays a text;
    a double that is a whole number is kept as that integer, so that a zero
    of either sign is read back as zero; a NaN is bound as NULL. *)
Definition real_affinity (c : cell) : cell :=
  match c with
  | SqlNull => SqlNull
  | SqlReal x =>
      if is_nan x then SqlNull
      else if is_zero x then SqlReal zero
      else SqlReal x
  | SqlText s =>
      match sqlite3AtoF s with
      | Some x => if is_zero x then SqlReal zero else SqlReal x
      | None => SqlText s
      end
  end.

(** *** Rowids *)

Definition max_rowid : Z := 2 ^ 63 - 1.

(** A 64-bit integer as a JavaScript number: the integer that the double
    nearest to [i] denotes, the even one of two that are as near. *)
Definition round_to_double (i : Z) : Z :=
  if Z.abs i <=? 2 ^ 53 then i
  else
    let d := Z.log2 (Z.abs i) - 52 in
    let q := Z.abs i / 2 ^ d in
    let r := Z.abs i mod 2 ^ d in
    let q' := if 2 * r <? 2 ^ d then q
              else if 2 ^ d <? 2 * r then q + 1
              else if Z.even q then q else q + 1 in
    Z.sgn i * (q' * 2 ^ d).

(** The largest rowid in the table (0 when it is empty). *)
Definition last_rowid (l : list SpeedTest) : Z := foldr Z.max 0 (id <$> l).

(** The rowid AUTOINCREMENT picks: one more than the largest rowid that ever
    existed in the table; SQLITE_FULL once the largest possible was used. *)
Definition new_rowid (t : table) : outcome Z :=
  let v := Z.max (last_rowid (rows t)) (seq t) in
  if v <? max_rowid then Ok (v + 1) else Raise DatabaseFull.

(** INSERT INTO speedtests (download_mbps, upload_mbps, ping_ms) VALUES (?, ?, ?)
    run at the second [now]; yields [info.lastInsertRowid], which the driver
    hands over as a JavaScript number. *)
Definition insert_speedtest (now : Z) (d u p : option jsval) (t : table)
  : outcome (Z * table) :=
  obind (bind_value d) (fun cd =>
  obind (bind_value u) (fun cu =>
  obind (bind_value p) (fun cp =>
  obind (new_rowid t) (fun i =>
  Ok (round_to_double i,
      {| rows := rows t ++ [mkSpeedTest i now (real_affinity cd) (real_affinity cu)
                              (real_affinity cp)];
         seq := i |}))))).

(** SELECT * FROM speedtests WHERE id = ?, with the number [i] for the
    parameter. *)
Definition select_by_id (i : Z) (t : table) : option SpeedTest :=
  List.find (fun r => id r =? i) (rows t).

Definition post_speedtests (now : Z) (body : gmap string jsval) (t : table)
  : response * table :=
  let download_mbps := body !! "download_mbps"%string in
  let upload_mbps := body !! "upload_mbps"%string in
  let ping_ms := body !! "ping_ms"%string in
  match insert_speedtest now download_mbps upload_mbps ping_ms t with
  | Ok (lastInsertRowid, t') =>
      match select_by_id lastInsertRowid t' with
      | Some newTest => (json (JsonRow newTest), t')
      | None => (json JsonNothing, t')
      end
  | Raise e => (internal_error e, t)
  end.

(** DELETE FROM speedtests (the sequence entry is kept) *)
Definition delete_speedtests (t : table) : response * table :=
  (json JsonSuccess, {| rows := []; seq := seq t |}).

(** ** The probe endpoints (server.ts, lines 53-70) *)

Definition payload_size : Z := 5 * 1024 * 1024.

(** The server as a whole: the answer to a request handled at the second
    [now], and the table afterwards.  The upload handler never looks at the
    body; the raw-body parser in front of it, with its limit of 20mb, is not
    part of the model. *)
Definition handle (now : Z) (rq : request) (t : table) : response * table :=
  match rq with
  | GetSpeedtests => get_speedtests t
  | PostSpeedtests body => post_speedtests now body t
  | DeleteSpeedtests => delete_speedtests t
  | GetPayload => (send (Bytes payload_size), t)
  | PostUpload _ => (send (Text "ok"), t)
  | GetPing => (send (Text "pong"), t)
  end.

(** A single writer: the requests are handled one after the other, each at
    the second its clock reading says. *)
Fixpoint serve (reqs : list (Z * request)) (t : table) : list response * table :=
  match reqs with
  | [] => ([], t)
  | (now, rq) :: reqs' =>
      let '(r, t1) := handle now rq t in
      let '(rs, t2) := serve reqs' t1 in
      (r :: rs, t2)
  end.

(** The record that a response carries when it answers a successful creation. *)
Definition created_by (r : response) : option SpeedTest :=
  match content_of r with
  | JsonRow x => if ok r then Some x else None
  | _ => None
  end.


(** ** JavaScript numbers *)

(** The double nearest to an integer (a size in bytes). *)
Definition float_of_Z (n : Z) : float :=
  SF2Prim (binary_normalize prec emax n 0 false).

(** The integer [n] for which [n / 100] is closest to [m * 2^e], the larger
    one when two are as close (Number.prototype.toFixed, step 10.a). *)
Definition nearest_hundredth (m e : Z) : Z :=
  if 0 <=? e then m * 100 * 2 ^ e
  else (2 * m * 100 + 2 ^ (- e)) / 2 ^ (- e + 1).

(** [Number(x.toFixed(2))].  A value that is not finite prints as Infinity,
    -Infinity or NaN and reads back as itself; so does a value of magnitude
    10^21 or more, which prints in full.  Any other value prints as the
    nearest multiple of 1/100, with its sign, and reads back as the double
    nearest to that decimal. *)
Definition toFixed2 (x : float) : float :=
  match Prim2SF x with
  | S754_finite s m e =>
      if (0 <=? e) && (10 ^ 21 <=? Z.pos m * 2 ^ e) then x
      else match nearest_hundredth (Z.pos m) e with
           | Z.pos n => SF2Prim (SFdiv prec emax (S754_finite s n 0) (S754_finite false 100 0))
           | _ => SF2Prim (S754_zero s)
           end
  | S754_zero _ => zero
  | _ => x
  end.

(** A number after [JSON.stringify] on the client and the JSON body parser
    on the server: NaN and the infinities are written as null, a zero of
    either sign as 0. *)
Definition json_number (x : float) : jsval :=
  if is_nan x || is_infinity x then JNull
  else if is_zero x then JNum zero
  else JNum x.

(** The throughput lines of the client (lines 66-69 for the download, 81-84
    for the upload): [size] bytes moved between the clock readings [start]
    and [finish], in mebibits per second. *)
Definition mbps (size start finish : float) : float :=
  let durationInSeconds := ((finish - start) / 1000)%float in
  let bitsLoaded := (size * 8)%float in
  let speedBps := (bitsLoaded / durationInSeconds)%float in
  (speedBps / (1024 * 1024))%float.

(** ** The client component *)

(** The state of the component ([useState]). *)
Record State := mkState {
  tests : list SpeedTest;
  isRunning : bool;
  autoTestEnabled : bool;
  lastTestTime : option Z;
  error : option string
}.

Definition setTests (f : list SpeedTest -> list SpeedTest) (st : State) : State :=
  mkState (f (tests st)) (isRunning st) (autoTestEnabled st) (lastTestTime st) (error st).
Definition setIsRunning (b : bool) (st : State) : State :=
  mkState (tests st) b (autoTestEnabled st) (lastTestTime st) (error st).
Definition setLastTestTime (d : option Z) (st : State) : State :=
  mkState (tests st) (isRunning st) (autoTestEnabled st) d (error st).
Definition setError (e : option string) (st : State) : State :=
  mkState (tests st) (isRunning st) (autoTestEnabled st) (lastTestTime st) e.

(** An async function: what it does up to its next [await], and how it goes
    on from there.  An awaited promise settles with a value or rejects. *)
Inductive Async (A : Type) : Type :=
| Return (a : A)
| Throw (e : exn)
| PerformanceNow (k : float -> Async A)
| SetState (f : State -> State) (k : Async A)
| AwaitFetch (rq : request) (k : outcome response -> Async A)
| AwaitBody (res : response) (k : outcome content -> Async A).
Arguments Return {A} a.
Arguments Throw {A} e.
Arguments PerformanceNow {A} k.
Arguments SetState {A} f k.
Arguments AwaitFetch {A} rq k.
Arguments AwaitBody {A} res k.

(** Continue [m] with [on_return] when it returns and with [on_throw] when it
    throws. *)
Fixpoint continue {A B} (m : Async A)
    (on_return : A -> Async B) (on_throw : exn -> Async B) : Async B :=
  match m with
  | Return a => on_return a
  | Throw e => on_throw e
  | PerformanceNow k => PerformanceNow (fun x => continue (k x) on_return on_throw)
  | SetState f k => SetState f (continue k on_return on_throw)
  | AwaitFetch rq k => AwaitFetch rq (fun o => continue (k o) on_return on_throw)
  | AwaitBody res k => AwaitBody res (fun o => continue (k o) on_return on_throw)
  end.

#[global] Instance Async_ret : MRet Async := fun A a => Return a.
#[global] Instance Async_bind : MBind Async := fun A B f m => continue m f Throw.

(** try { m } catch (err) { h err } *)
Definition try_catch {A} (m : Async A) (h : exn -> Async A) : Async A :=
  continue m Return h.

(** try { m } finally { fin } *)
Definition try_finally {A} (m : Async A) (fin : Async unit) : Async A :=
  continue m (fun a => fin ;; Return a) (fun e => fin ;; Throw e).

Definition await {A} (o : outcome A) : Async A :=
  match o with
  | Ok a => Return a
  | Raise e => Throw e
  end.

Definition performance_now : Async float := PerformanceNow Return.
Definition set_state (f : State -> State) : Async unit := SetState f (Return tt).
Definition fetch (rq : request) : Async response := AwaitFetch rq await.

(** [await res.blob()], of which the client reads the size only. *)
Definition blob (res : response) : Async content := AwaitBody res await.

(** [await saveRes.json()].  The server answers a creation with the record
    or with an empty body ([post_speedtests]); any other content is not a
    record and is treated as a body that does not parse. *)
Definition json_of (res : response) : Async SpeedTest :=
  AwaitBody res (fun o =>
    match o with
    | Ok (JsonRow r) => Return r
    | Ok _ => Throw (Error "Unexpected end of JSON input")
    | Raise e => Throw e
    end).

Definition upload_size : Z := 2 * 1024 * 1024.

(** The body of the creation request: the three metrics rounded to two
    decimals, serialised and parsed again. *)
Definition save_body (download_mbps upload_mbps ping_ms : float) : gmap string jsval :=
  {[ "download_mbps"%string := json_number (toFixed2 download_mbps);
     "upload_mbps"%string := json_number (toFixed2 upload_mbps);
     "ping_ms"%string := json_number (toFixed2 ping_ms) ]}.

Definition save_failed : string := "測定結果の保存に失敗しました".
Definition test_failed : string := "測定に失敗しました。もう一度お試しください。".

Section RunSpeedTest.

(** The size of a blob: the bytes of the body.  [json_length] stands for
    the length of a serialised JSON or error body, which the model does
    not spell out (the client takes the blob of the payload only). *)
Variable json_length : content -> Z.

Definition blob_size (c : content) : float :=
  float_of_Z match c with
             | Bytes n => n
             | Text s => Z.of_nat (String.length s)
             | _ => json_length c
             end.

(** [runSpeedTest] (lines 48-108); [isRunning] is the flag as the callback
    captured it at the last render. *)
Definition runSpeedTest (isRunning : bool) : Async unit :=
  if isRunning then Return tt else
  set_state (setIsRunning true) ;;
  set_state (setError None) ;;
  try_finally
    (try_catch
       ((* 1. Measure Ping *)
        pingStart ← performance_now;
        fetch GetPing ;;
        pingEnd ← performance_now;
        let ping_ms := (pingEnd - pingStart)%float in
        (* 2. Measure Download Speed *)
        downloadStart ← performance_now;
        res ← fetch GetPayload;
        blob ← blob res;
        downloadEnd ← performance_now;
        let download_mbps := mbps (blob_size blob) downloadStart downloadEnd in
        (* 3. Measure Upload Speed *)
        let uploadData := upload_size in
        uploadStart ← performance_now;
        fetch (PostUpload uploadData) ;;
        uploadEnd ← performance_now;
        let upload_mbps := mbps (float_of_Z uploadData) uploadStart uploadEnd in
        (* 4. Save Result *)
        saveRes ← fetch (PostSpeedtests (save_body download_mbps upload_mbps ping_ms));
        if negb (ok saveRes) then Throw (Error save_failed) else
        newTest ← json_of saveRes;
        set_state (setTests (fun prev => take 100 (newTest :: prev))) ;;
        set_state (setLastTestTime (Some (timestamp newTest))))
       (fun err => set_state (setError (Some test_failed))))
    (set_state (setIsRunning false)).

End RunSpeedTest.

(** ** The client running against the server *)

(** The fate of a request on the network. *)
Inductive delivery :=
| Delivered      (* the server handles it and the answer arrives *)
| RequestLost    (* it never reaches the server: the promise rejects *)
| ResponseLost   (* the server handles it, the answer is lost: the promise rejects *).

(** What the program does not decide, by the number of the interaction with
    the environment at which it is asked. *)
Record World := mkWorld {
  now_at : nat -> float;             (* the reading of performance.now() *)
  link_at : nat -> delivery;         (* what happens to a request sent *)
  body_at : nat -> bool;             (* whether a body arrives whole *)
  current_timestamp : nat -> Z;      (* the server's CURRENT_TIMESTAMP *)
  json_length : content -> Z
}.

(** The component, the store, and the number of interactions so far. *)
Record Sys := mkSys {
  ui : State;
  store : table;
  tick : nat
}.

Definition fetch_settles (w : World) (rq : request) (s : Sys) : outcome response * Sys :=
  match link_at w (tick s) with
  | RequestLost => (Raise NetworkError, mkSys (ui s) (store s) (S (tick s)))
  | ResponseLost =>
      let '(_, t) := handle (current_timestamp w (tick s)) rq (store s) in
      (Raise NetworkError, mkSys (ui s) t (S (tick s)))
  | Delivered =>
      let '(r, t) := handle (current_timestamp w (tick s)) rq (store s) in
      (Ok r, mkSys (ui s) t (S (tick s)))
  end.

Definition body_settles (w : World) (res : response) (s : Sys) : outcome content * Sys :=
  (if body_at w (tick s) then Ok (content_of res) else Raise NetworkError,
   mkSys (ui s) (store s) (S (tick s))).

(** Run an async function to its end. *)
Fixpoint exec {A} (w : World) (m : Async A) (s : Sys) : outcome A * Sys :=
  match m with
  | Return a => (Ok a, s)
  | Throw e => (Raise e, s)
  | PerformanceNow k =>
      exec w (k (now_at w (tick s))) (mkSys (ui s) (store s) (S (tick s)))
  | SetState f k => exec w k (mkSys (f (ui s)) (store s) (tick s))
  | AwaitFetch rq k => let '(o, s') := fetch_settles w rq s in exec w (k o) s'
  | AwaitBody res k => let '(o, s') := body_settles w res s in exec w (k o) s'
  end.

(** One whole run of the test, from the call of [runSpeedTest]. *)
Definition run_test (w : World) (s : Sys) : Sys :=
  (exec w (runSpeedTest (json_length w) (isRunning (ui s))) s).2.

(** *** Calls that overlap *)

(** Run the synchronous part of an async function: up to its next [await],
    or to its end. *)
Fixpoint advance {A} (w : World) (m : Async A) (s : Sys) : Async A * Sys :=
  match m with
  | PerformanceNow k =>
      advance w (k (now_at w (tick s))) (mkSys (ui s) (store s) (S (tick s)))
  | SetState f k => advance w k (mkSys (f (ui s)) (store s) (tick s))
  | _ => (m, s)
  end.

(** The awaited promise settles and the function goes on to its next
    [await]. *)
Definition resume {A} (w : World) (m : Async A) (s : Sys) : Async A * Sys :=
  match m with
  | AwaitFetch rq k => let '(o, s') := fetch_settles w rq s in advance w (k o) s'
  | AwaitBody res k => let '(o, s') := body_settles w res s in advance w (k o) s'
  | _ => advance w m s
  end.

Definition finished {A} (m : Async A) : bool :=
  match m with
  | Return _ | Throw _ => true
  | _ => false
  end.

(** The page: the system and the calls of [runSpeedTest] that are waiting on
    a promise. *)
Record App := mkApp {
  sys : Sys;
  in_flight : list (Async unit)
}.

(** A call of [runSpeedTest] is a call of the callback of some render, which
    has captured the [isRunning] of that render. *)
Inductive event :=
| Invoke (isRunning : bool)  (* the button or the timer calls a runSpeedTest *)
| Settle (i : nat)           (* the promise the i-th waiting call awaits settles *).

Definition step (w : World) (a : App) (ev : event) : App :=
  match ev with
  | Invoke captured =>
      let '(m, s) := advance w (runSpeedTest (json_length w) captured) (sys a) in
      mkApp s (if finished m then in_flight a else in_flight a ++ [m])
  | Settle i =>
      match in_flight a !! i with
      | None => a
      | Some m =>
          let '(m', s) := resume w m (sys a) in
          mkApp s (if finished m' then delete i (in_flight a)
                   else <[i := m']> (in_flight a))
      end
  end.

Definition run_events (w : World) (evs : list event) (a : App) : App :=
  foldl (step w) a evs.

(** ** The rest of the component *)

Definition history_failed : string := "履歴の取得に失敗しました".
Definition history_unreadable : string := "履歴を読み込めませんでした。".
Definition clear_failed : string := "履歴の削除に失敗しました。".

(** [await res.json()] on the answer to the listing request.  The server
    answers it with an array of records ([get_speedtests]); any other
    content is treated as a body that does not parse. *)
Definition json_rows_of (res : response) : Async (list SpeedTest) :=
  AwaitBody res (fun o =>
    match o with
    | Ok (JsonRows l) => Return l
    | Ok _ => Throw (Error "Unexpected end of JSON input")
    | Raise e => Throw e
    end).

(** [fetchHistory] (lines 29-42), which the component calls when it mounts. *)
Definition fetchHistory : Async unit :=
  try_catch
    (res ← fetch GetSpeedtests;
     if negb (ok res) then Throw (Error history_failed) else
     data ← json_rows_of res;
     set_state (setTests (fun _ => data)) ;;
     match data with
     | first :: _ => set_state (setLastTestTime (Some (timestamp first)))
     | [] => Return tt
     end)
    (fun err => set_state (setError (Some history_unreadable))).

(** [clearHistory] (lines 129-139); [confirmed] is the answer to the
    [confirm] dialog that it opens first. *)
Definition clearHistory (confirmed : bool) : Async unit :=
  if negb confirmed then Return tt else
  try_catch
    (fetch DeleteSpeedtests ;;
     set_state (setTests (fun _ => [])) ;;
     set_state (setLastTestTime None))
    (fun err => set_state (setError (Some clear_failed))).

Definition load_history (w : World) (s : Sys) : Sys := (exec w fetchHistory s).2.

Definition clear_history (w : World) (confirmed : bool) (s : Sys) : Sys :=
  (exec w (clearHistory confirmed) s).2.

(** *** The auto-test timer (lines 110-127) *)

(** The timers of the page: the intervals that are set, each with the time
    (in ms) at which it was set, the handle that the next [setInterval]
    returns, and the ref of the component. *)
Record Timers := mkTimers {
  intervals : gmap positive Z;
  next_handle : positive;
  autoTestIntervalRef : option positive
}.

Definition auto_test_period : Z := 30 * 60 * 1000.

Definition setInterval (now : Z) (tm : Timers) : positive * Timers :=
  (next_handle tm,
   mkTimers (<[next_handle tm := now]> (intervals tm)) (Pos.succ (next_handle tm))
            (autoTestIntervalRef tm)).

(** Clearing a handle that is not set does nothing. *)
Definition clearInterval (h : positive) (tm : Timers) : Timers :=
  mkTimers (delete h (intervals tm)) (next_handle tm) (autoTestIntervalRef tm).

(** The body of the effect. *)
Definition auto_test_effect (autoTestEnabled : bool) (now : Z) (tm : Timers) : Timers :=
  if autoTestEnabled then
    let '(h, tm') := setInterval now tm in
    mkTimers (intervals tm') (next_handle tm') (Some h)
  else
    match autoTestIntervalRef tm with
    | Some h => clearInterval h tm
    | None => tm
    end.

(** The function that the effect returns. *)
Definition auto_test_cleanup (tm : Timers) : Timers :=
  match autoTestIntervalRef tm with
  | Some h => clearInterval h tm
  | None => tm
  end.

(** The dependencies of the effect: [autoTestEnabled] and [runSpeedTest],
    a callback that is made anew exactly when [isRunning] changes. *)
Definition effect_deps (st : State) : bool * bool :=
  (autoTestEnabled st, isRunning st).

(** The first render: the effect runs. *)
Definition mount (now : Z) (st : State) : Timers :=
  auto_test_effect (autoTestEnabled st) now (mkTimers ∅ 1 None).

(** A later render, at the time [now], from the state [old] to the state
    [new]: when a dependency has changed, the clean-up of the last run of
    the effect runs and then the effect. *)
Definition commit (now : Z) (old new : State) (tm : Timers) : Timers :=
  if decide (effect_deps old = effect_deps new) then tm
  else auto_test_effect (autoTestEnabled new) now (auto_test_cleanup tm).

Definition unmount (tm : Timers) : Timers := auto_test_cleanup tm.

(** The renders that follow one another, each with its time and its state;
    yields the last state with the timers. *)
Fixpoint commits (renders : list (Z * State)) (st : State) (tm : Timers) : State * Timers :=
  match renders with
  | [] => (st, tm)
  | (now, st') :: renders' => commits renders' st' (commit now st st' tm)
  end.

(** The times at which some interval calls [runSpeedTest]. *)
Definition fires_at (tm : Timers) (t : Z) : Prop :=
  exists h t0 k, intervals tm !! h = Some t0 /\ 0 < k /\ t = t0 + k * auto_test_period.

(** *** The numbers on the page (lines 141-148 and the JSX) *)

(** A number as the page shows it: the two dashes, or [x.toFixed(digits)]. *)
Inductive shown :=
| Dashes
| Fixed (digits : nat) (x : float).

(** What the page shows: the three cards of the latest test, the data of
    the chart, the rows of the history table, the error banner, and whether
    the run button is disabled and the clear button present.  The labels of
    dates and times are left out. *)
Record View := mkView {
  cards : shown * shown * shown;
  chartData : list SpeedTest;
  history : list (shown * shown * shown);
  banner : option string;
  run_disabled : bool;
  clear_shown : bool
}.

Section Render.

(** The number that SQLite's REAL affinity makes of a text that spells one. *)
Variable spells_number : string -> option float.

(** A cell as the client finds it in a record that it received as JSON. *)
Definition field (c : cell) : jsval :=
  match c with
  | SqlNull => JNull
  | SqlReal x => json_number x
  | SqlText s =>
      match spells_number s with
      | Some x => json_number x
      | None => JStr s
      end
  end.

(** [v.toFixed(digits)]: only a number has the method; on anything else the
    call throws a TypeError (the messages are those of V8). *)
Definition toFixed (digits : nat) (v : jsval) : outcome shown :=
  match v with
  | JNum x => Ok (Fixed digits x)
  | JNull => Raise (Error "Cannot read properties of null (reading 'toFixed')")
  | _ => Raise (Error "toFixed is not a function")
  end.

(** [v != null ? v.toFixed(digits) : '--'] *)
Definition toFixed_or_dashes (digits : nat) (v : jsval) : outcome shown :=
  match v with
  | JNull => Ok Dashes
  | _ => toFixed digits v
  end.

Definition latestTest (tests : list SpeedTest) : option SpeedTest := head tests.

Definition render_cards (latest : option SpeedTest) : outcome (shown * shown * shown) :=
  match latest with
  | None => Ok (Dashes, Dashes, Dashes)
  | Some t =>
      obind (toFixed 1 (field (download_mbps t))) (fun d =>
      obind (toFixed_or_dashes 1 (field (upload_mbps t))) (fun u =>
      obind (toFixed 0 (field (ping_ms t))) (fun p =>
      Ok (d, u, p))))
  end.

Definition render_row (t : SpeedTest) : outcome (shown * shown * shown) :=
  obind (toFixed 2 (field (download_mbps t))) (fun d =>
  obind (toFixed_or_dashes 2 (field (upload_mbps t))) (fun u =>
  obind (toFixed 0 (field (ping_ms t))) (fun p =>
  Ok (d, u, p)))).

Fixpoint render_rows (tests : list SpeedTest) : outcome (list (shown * shown * shown)) :=
  match tests with
  | [] => Ok []
  | t :: tests' =>
      obind (render_row t) (fun r =>
      obind (render_rows tests') (fun rs =>
      Ok (r :: rs)))
  end.

(** One render of the component. *)
Definition render (st : State) : outcome View :=
  obind (render_cards (latestTest (tests st))) (fun c =>
  obind (render_rows (tests st)) (fun h =>
  Ok {| cards := c;
        chartData := reverse (tests st);
        history := h;
        banner := error st;
        run_disabled := isRunning st;
        clear_shown := bool_decide (tests st <> []) |})).

End Render.

(** * Notions of the statements *)

(** The requests that create a record. *)
Definition is_creation (rq : request) : bool :=
  match rq with
  | PostSpeedtests _ => true
  | _ => false
  end.

(** The order of the listing: the timestamp does not increase. *)
Definition later_first (a b : SpeedTest) : Prop := timestamp b <= timestamp a.

(** Newest first with respect to insertion: by decreasing rowid. *)
Definition newest_first (l : list SpeedTest) : Prop :=
  StronglySorted (fun a b => id b < id a) l.

(** The records of a listing. *)
Definition rows_of (r : response) : list SpeedTest :=
  match content_of r with
  | JsonRows l => l
  | _ => []
  end.

(** What the store holds of a metric of a body: the value bound, as the
    REAL column keeps it. *)
Definition stored (v : option jsval) : outcome cell :=
  obind (bind_value v) (fun c => Ok (real_affinity c)).

(** A metric that the driver can bind: anything but a boolean. *)
Definition bindable (v : option jsval) : bool :=
  match v with
  | Some (JBool _) => false
  | _ => true
  end.

(** The cell that a number of the client becomes: serialised, parsed and
    bound. *)
Definition cell_of_number (x : float) : cell :=
  if is_nan x || is_infinity x then SqlNull
  else if is_zero x then SqlReal zero
  else SqlReal x.


(** The run that starts at interaction [n] reads the clock at [n] (ping
    start), [2 + n] (ping end), [3 + n] and [6 + n] (download), [7 + n] and
    [9 + n] (upload); it sends the ping at [1 + n], asks for the payload at
    [4 + n] and reads its body at [5 + n], uploads at [8 + n], sends the
    record at [10 + n] and reads the answer at [11 + n]. *)
Definition probe_fails (w : World) (n : nat) : Prop :=
  link_at w (1 + n) <> Delivered \/
  link_at w (4 + n) <> Delivered \/
  body_at w (5 + n) = false \/
  link_at w (8 + n) <> Delivered.

(** Every request of the run that starts at interaction [n] is answered and
    every body arrives. *)
Definition all_arrive (w : World) (n : nat) : Prop :=
  link_at w (1 + n) = Delivered /\
  link_at w (4 + n) = Delivered /\
  body_at w (5 + n) = true /\
  link_at w (8 + n) = Delivered /\
  link_at w (10 + n) = Delivered /\
  body_at w (11 + n) = true.

(** A world in which everything arrives and the clock does not move while
    the payload is downloaded. *)
Definition frozen_download : World :=
  mkWorld (fun n => match n with
                    | 2%nat | 3%nat | 6%nat => 20
                    | 7%nat => 1020
                    | 9%nat => 1520
                    | _ => 0
                    end%float)
          (fun _ => Delivered) (fun _ => true) (fun _ => 1700000000) (fun _ => 0).




(** Every call in [evs] is a call of the callback of the latest render: the
    [isRunning] that it has captured is the one of the state at the call. *)
Fixpoint current_calls (w : World) (evs : list event) (a : App) : Prop :=
  match evs with
  | [] => True
  | ev :: evs' =>
      match ev with
      | Invoke captured => captured = isRunning (ui (sys a))
      | Settle _ => True
      end /\ current_calls w evs' (step w a ev)
  end.


(** A table as the server keeps it: the rowids increase along the rows, are
    positive and do not exceed the sequence, which is not negative. *)
Definition well_kept (t : table) : Prop :=
  StronglySorted (fun a b => id a < id b) (rows t) /\
  Forall (fun r => 0 < id r <= seq t) (rows t) /\
  0 <= seq t.

(** The order of a listing in full: later timestamp first and, within one
    second, smaller rowid first. *)
Definition listing_order (a b : SpeedTest) : Prop :=
  timestamp b < timestamp a \/ (timestamp a = timestamp b /\ id a < id b).

(** The records of a database file, whatever its schema: id, timestamp,
    download and ping of each, with the upload where the column exists. *)
Definition records (d : database) : list (Z * Z * cell * option cell * cell) :=
  match d with
  | NoTable => []
  | OldTable rs _ =>
      (fun r => (old_id r, old_timestamp r, old_download_mbps r, None, old_ping_ms r)) <$> rs
  | Speedtests t =>
      (fun r => (id r, timestamp r, download_mbps r, Some (upload_mbps r), ping_ms r)) <$> rows t
  end.

(** The upload of a record that had none is NULL. *)
Definition with_upload (r : Z * Z * cell * option cell * cell)
  : Z * Z * cell * option cell * cell :=
  match r with
  | (i, ts, d, None, p) => (i, ts, d, Some SqlNull, p)
  | _ => r
  end.

(** The sequence entry of a database file. *)
Definition sequence (d : database) : Z :=
  match d with
  | NoTable => 0
  | OldTable _ s => s
  | Speedtests t => seq t
  end.

(** The timers once the effect has run for the state [st]: one interval,
    the one of the ref, when auto-test is enabled, and none when it is not. *)
Definition settled (st : State) (tm : Timers) : Prop :=
  if autoTestEnabled st
  then exists h t0, autoTestIntervalRef tm = Some h /\ intervals tm = {[ h := t0 ]}
  else intervals tm = ∅.

(** A record every number of which the page can show. *)
Definition displayable (spells_number : string -> option float) (t : SpeedTest) : Prop :=
  (exists x, field spells_number (download_mbps t) = JNum x) /\
  (field spells_number (upload_mbps t) = JNull \/
   exists x, field spells_number (upload_mbps t) = JNum x) /\
  (exists x, field spells_number (ping_ms t) = JNum x).

(** The three probes of the run that starts at interaction [n] are answered
    and the payload arrives. *)
Definition probes_arrive (w : World) (n : nat) : Prop :=
  link_at w (1 + n) = Delivered /\
  link_at w (4 + n) = Delivered /\
  body_at w (5 + n) = true /\
  link_at w (8 + n) = Delivered.

(** * Properties of the server *)

(** ** Schema initialisation *)

Lemma init_schema_total (d : database) :
  exists t, init_schema d = Ok (Speedtests t).
Proof. destruct d as [|rs s|t]; cbn; eauto. Qed.

Lemma init_schema_migrated (t : table) :
  init_schema (Speedtests t) = Ok (Speedtests t).
Proof. reflexivity. Qed.

(** C7: initialising a store that is initialised already (one that has the
    upload_mbps column: the ALTER statement then fails and the failure is
    caught) raises nothing and returns the store as it was, rows and
    sequence; and whatever the store was before the first initialisation, a
    second one changes nothing more. *)
Theorem init_schema_idempotent (d : database) (t : table) :
  init_schema (Speedtests t) = Ok (Speedtests t) /\
  exists t1, init_schema d = Ok (Speedtests t1) /\
             obind (init_schema d) init_schema = Ok (Speedtests t1).
Proof.
  split; [apply init_schema_migrated|].
  destruct (init_schema_total d) as [t1 E]. exists t1.
  rewrite E. split; [done|]. cbn [obind]. apply init_schema_migrated.
Qed.

(** ** Clearing *)

Lemma handle_keeps_empty now rq t :
  is_creation rq = false -> rows t = [] -> rows (handle now rq t).2 = [].
Proof. destruct rq; cbn; intros; done. Qed.

Lemma serve_keeps_empty reqs : forall t,
  Forall (fun p => is_creation p.2 = false) reqs ->
  rows t = [] -> rows (serve reqs t).2 = [].
Proof.
  induction reqs as [|[now rq] reqs IH]; intros t Hall Ht; [done|].
  apply Forall_cons in Hall as [Hrq Hall]. cbn [serve].
  pose proof (handle_keeps_empty now rq t Hrq Ht) as H1.
  destruct (handle now rq t) as [r t1]. cbn in H1.
  specialize (IH t1 Hall H1).
  destruct (serve reqs t1) as [rs t2]. exact IH.
Qed.

(** C9: DELETE /api/speedtests answers 200 with {success: true} and leaves
    no row, whatever the store held; a GET that follows, with any requests
    other than creations in between, returns the empty sequence. *)
Theorem delete_then_get_empty (now now' : Z) (between : list (Z * request)) (t : table) :
  Forall (fun p => is_creation p.2 = false) between ->
  (handle now DeleteSpeedtests t).1 = json JsonSuccess /\
  rows (handle now DeleteSpeedtests t).2 = [] /\
  (handle now' GetSpeedtests (serve between (handle now DeleteSpeedtests t).2).2).1
    = json (JsonRows []).
Proof.
  intros Hall. split; [done|]. split; [done|].
  cbn [handle get_speedtests fst]. unfold select_recent.
  rewrite (serve_keeps_empty between _ Hall); done.
Qed.

Lemma delete_then_get_empty_witness :
  (handle 7 GetSpeedtests
     (serve [(6, GetPing); (6, DeleteSpeedtests)]
        (handle 5 DeleteSpeedtests
           (mkTable [mkSpeedTest 1 3 (SqlReal 40) (SqlReal 32) (SqlReal 20)] 1)).2).2).1
  = json (JsonRows []).
Proof.
  apply (delete_then_get_empty 5 7 [(6, GetPing); (6, DeleteSpeedtests)]).
  repeat constructor.
Defined.

(** C10: clearing a store that holds no row succeeds with {success: true}
    and leaves it as it was, so that clearing twice is clearing once. *)
Theorem delete_speedtests_idempotent (s : Z) (t : table) :
  delete_speedtests (mkTable [] s) = (json JsonSuccess, mkTable [] s) /\
  delete_speedtests (delete_speedtests t).2 = delete_speedtests t.
Proof. split; reflexivity. Qed.

(** ** Listing *)

Lemma insert_by_timestamp_desc_perm r l :
  insert_by_timestamp_desc r l ≡ₚ r :: l.
Proof.
  induction l as [|x l IH]; cbn; [done|].
  destruct (timestamp x <=? timestamp r); [done|].
  rewrite IH. apply Permutation_swap.
Qed.

Lemma order_by_timestamp_desc_perm l : order_by_timestamp_desc l ≡ₚ l.
Proof.
  induction l as [|x l IH]; cbn; [done|].
  fold (order_by_timestamp_desc l).
  by rewrite insert_by_timestamp_desc_perm, IH.
Qed.

Lemma insert_by_timestamp_desc_sorted r l :
  StronglySorted later_first l ->
  StronglySorted later_first (insert_by_timestamp_desc r l).
Proof.
  induction 1 as [|x l Hl IH Hx]; cbn; [repeat constructor|].
  destruct (Z.leb_spec (timestamp x) (timestamp r)) as [Hle|Hlt].
  - constructor; [by constructor|].
    constructor; [exact Hle|].
    eapply Forall_impl; [exact Hx|]. unfold later_first. intros; cbn in *; lia.
  - constructor; [exact IH|].
    rewrite insert_by_timestamp_desc_perm.
    constructor; [unfold later_first; lia | exact Hx].
Qed.

Lemma order_by_timestamp_desc_sorted l :
  StronglySorted later_first (order_by_timestamp_desc l).
Proof.
  induction l as [|x l IH]; cbn; [constructor|].
  by apply insert_by_timestamp_desc_sorted.
Qed.

Lemma StronglySorted_take {A} (R : relation A) n l :
  StronglySorted R l -> StronglySorted R (take n l).
Proof.
  intros H. rewrite <- (take_drop n l) in H.
  by apply StronglySorted_app_1_l in H.
Qed.

Lemma insert_by_timestamp_desc_oldest r l :
  Forall (fun x => timestamp r < timestamp x) l ->
  insert_by_timestamp_desc r l = l ++ [r].
Proof.
  induction 1 as [|x l Hx _ IH]; cbn; [done|].
  destruct (Z.leb_spec (timestamp x) (timestamp r)); [lia|].
  by rewrite IH.
Qed.

Lemma order_by_timestamp_desc_increasing l :
  StronglySorted (fun a b => timestamp a < timestamp b) l ->
  order_by_timestamp_desc l = reverse l.
Proof.
  unfold order_by_timestamp_desc.
  induction 1 as [|x l _ IH Hx]; [done|].
  cbn [foldr]. rewrite IH, reverse_cons.
  apply insert_by_timestamp_desc_oldest.
  by rewrite Forall_reverse.
Qed.

(** C5, as stated, fails: two records created within one second come back
    in the order of their creation, the older one first. *)
Lemma get_speedtests_same_second :
  let body := {[ "download_mbps"%string := JNum 40; "upload_mbps"%string := JNum 32;
                 "ping_ms"%string := JNum 20 ]} in
  let t := (serve [(5, PostSpeedtests body); (5, PostSpeedtests body)] (mkTable [] 0)).2 in
  id <$> rows_of (get_speedtests t).1 = [1; 2] /\
  ~ newest_first (rows_of (get_speedtests t).1).
Proof.
  intros body t.
  assert (rows_of (get_speedtests t).1 =
          [mkSpeedTest 1 5 (SqlReal 40) (SqlReal 32) (SqlReal 20);
           mkSpeedTest 2 5 (SqlReal 40) (SqlReal 32) (SqlReal 20)]) as ->
    by (vm_compute; reflexivity).
  split; [reflexivity|]. intros H.
  apply StronglySorted_inv in H as [_ H].
  apply Forall_cons in H as [H _]. cbn in H. lia.
Qed.

(** C5, amended: GET /api/speedtests returns at most 100 rows of the store,
    by timestamp, latest first; this is the order of insertion reversed, and
    the rows are the 100 last inserted, when the timestamps of the stored
    rows increase strictly in the order of insertion. *)
Theorem get_speedtests_limit_order (t : table) :
  let l := rows_of (get_speedtests t).1 in
  (get_speedtests t).2 = t /\
  status (get_speedtests t).1 = 200 /\
  (length l <= 100)%nat /\
  l ⊆ rows t /\
  StronglySorted later_first l /\
  (StronglySorted (fun a b => timestamp a < timestamp b) (rows t) ->
   l = take 100 (reverse (rows t))).
Proof.
  cbn. unfold select_recent. repeat split.
  - rewrite length_take. lia.
  - etrans; [apply subseteq_take|].
    intros x. by rewrite order_by_timestamp_desc_perm.
  - apply StronglySorted_take, order_by_timestamp_desc_sorted.
  - intros H. by rewrite order_by_timestamp_desc_increasing.
Qed.

Lemma get_speedtests_limit_order_witness :
  let t := mkTable [mkSpeedTest 1 3 SqlNull SqlNull SqlNull;
                    mkSpeedTest 2 4 SqlNull SqlNull SqlNull] 2 in
  rows_of (get_speedtests t).1 = take 100 (reverse (rows t)).
Proof.
  intros t.
  apply (get_speedtests_limit_order t).
  cbn. repeat constructor; cbn; lia.
Defined.

(** ** Creation *)

Lemma last_rowid_bound l x : x ∈ l -> id x <= last_rowid l.
Proof.
  unfold last_rowid. induction 1 as [x l|x y l _ IH]; cbn; lia.
Qed.

Lemma find_snoc {A} (P : A -> bool) l x :
  Forall (fun y => P y = false) l -> P x = true -> List.find P (l ++ [x]) = Some x.
Proof.
  induction 1 as [|y l Hy _ IH]; cbn; intros Hx.
  - by rewrite Hx.
  - rewrite Hy. by apply IH.
Qed.

Lemma last_rowid_nonneg l : 0 <= last_rowid l.
Proof. unfold last_rowid. induction l; cbn; lia. Qed.


Lemma select_by_id_new i r t :
  last_rowid (rows t) < i -> id r = i ->
  select_by_id i {| rows := rows t ++ [r]; seq := i |} = Some r.
Proof.
  intros Hi Hr. unfold select_by_id. cbn [rows].
  apply find_snoc; [|lia].
  apply Forall_forall. intros y Hy.
  apply last_rowid_bound in Hy. lia.
Qed.

(** Integers as JavaScript numbers: exact up to 2^53, then rounded to the
    nearest double, to the even one on a tie; the largest rowid becomes
    2^63.  The rounding is that of [float_of_Z]. *)
Example round_to_double_examples :
  round_to_double (2 ^ 53) = 2 ^ 53 /\
  round_to_double (2 ^ 53 + 1) = 2 ^ 53 /\
  round_to_double (2 ^ 53 + 2) = 2 ^ 53 + 2 /\
  round_to_double (2 ^ 53 + 3) = 2 ^ 53 + 4 /\
  round_to_double max_rowid = 2 ^ 63 /\
  float_of_Z (round_to_double (2 ^ 53 + 3)) = float_of_Z (2 ^ 53 + 3) /\
  float_of_Z (round_to_double (2 ^ 60 + 129)) = float_of_Z (2 ^ 60 + 129).
Proof. repeat split; vm_compute; reflexivity. Qed.

(** Texts in a REAL column: the ones that spell a number are stored as that
    number, with white space around it allowed; the others stay texts; a
    NaN that is bound is stored as NULL and a negative zero as zero. *)
Example real_affinity_examples :
  real_affinity (SqlText "12.5") = SqlReal 12.5 /\
  real_affinity (SqlText " 7 ") = SqlReal 7 /\
  real_affinity (SqlText "-1.5e3") = SqlReal (-1500) /\
  real_affinity (SqlText ".5") = SqlReal 0.5 /\
  real_affinity (SqlText "5.") = SqlReal 5 /\
  real_affinity (SqlText "0.75") = SqlReal 0.75 /\
  real_affinity (SqlText "-0") = SqlReal 0 /\
  real_affinity (SqlText "1e400") = SqlReal infinity /\
  real_affinity (SqlText "fast") = SqlText "fast" /\
  real_affinity (SqlText "") = SqlText "" /\
  real_affinity (SqlText "1e") = SqlText "1e" /\
  real_affinity (SqlText "0x10") = SqlText "0x10" /\
  real_affinity (SqlText "12abc") = SqlText "12abc" /\
  real_affinity (SqlText "Infinity") = SqlText "Infinity" /\
  real_affinity (SqlReal nan) = SqlNull /\
  real_affinity (SqlReal (-0)) = SqlReal 0 /\
  real_affinity (SqlReal infinity) = SqlReal infinity.
Proof. repeat split; vm_compute; reflexivity. Qed.

(** A creation once the sequence has reached 2^53: the row 2^53 + 1 is
    inserted, and the look-up of the id 2^53, which is what the driver
    reports, finds no row in an empty table (the answer is a 200 without a
    body) and the row of the creation before when there is one. *)
Example post_speedtests_beyond_exact_ids :
  let body := {[ "download_mbps"%string := JNum 40; "upload_mbps"%string := JNum 32;
                 "ping_ms"%string := JNum 20 ]} in
  let x := mkSpeedTest (2 ^ 53) 5 (SqlReal 40) (SqlReal 32) (SqlReal 20) in
  let y := mkSpeedTest (2 ^ 53 + 1) 6 (SqlReal 40) (SqlReal 32) (SqlReal 20) in
  post_speedtests 6 body (mkTable [] (2 ^ 53)) = (json JsonNothing, mkTable [y] (2 ^ 53 + 1)) /\
  post_speedtests 6 body (mkTable [x] (2 ^ 53)) =
    (json (JsonRow x), mkTable [x; y] (2 ^ 53 + 1)).
Proof. split; vm_compute; reflexivity. Qed.

Lemma round_to_double_exact i : Z.abs i <= 2 ^ 53 -> round_to_double i = i.
Proof.
  intros H. unfold round_to_double.
  by destruct (Z.leb_spec (Z.abs i) (2 ^ 53)); [|lia].
Qed.

(** What a creation does, by cases on the three bindings and on the room
    left in the sequence. *)
Lemma post_speedtests_cases now body t :
  let d := bind_value (body !! "download_mbps"%string) in
  let u := bind_value (body !! "upload_mbps"%string) in
  let p := bind_value (body !! "ping_ms"%string) in
  match d, u, p with
  | Ok cd, Ok cu, Ok cp =>
      let i := Z.max (last_rowid (rows t)) (seq t) + 1 in
      let r := mkSpeedTest i now (real_affinity cd) (real_affinity cu) (real_affinity cp) in
      let t' := {| rows := rows t ++ [r]; seq := i |} in
      if Z.max (last_rowid (rows t)) (seq t) <? max_rowid
      then post_speedtests now body t =
             (json match select_by_id (round_to_double i) t' with
                   | Some x => JsonRow x
                   | None => JsonNothing
                   end, t')
      else post_speedtests now body t = (internal_error DatabaseFull, t)
  | _, _, _ => post_speedtests now body t = (internal_error BindTypeError, t)
  end.
Proof.
  cbn zeta. unfold post_speedtests, insert_speedtest, new_rowid.
  destruct (bind_value (body !! "download_mbps"%string)) as [cd|e1] eqn:E1; cbn [obind];
    [|by destruct (body !! "download_mbps"%string) as [[]|]; simplify_eq/=].
  destruct (bind_value (body !! "upload_mbps"%string)) as [cu|e2] eqn:E2; cbn [obind];
    [|by destruct (body !! "upload_mbps"%string) as [[]|]; simplify_eq/=].
  destruct (bind_value (body !! "ping_ms"%string)) as [cp|e3] eqn:E3; cbn [obind];
    [|by destruct (body !! "ping_ms"%string) as [[]|]; simplify_eq/=].
  destruct (Z.ltb_spec (Z.max (last_rowid (rows t)) (seq t)) max_rowid); cbn [obind]; [|done].
  by destruct (select_by_id _ _).
Qed.

(** A creation either leaves the table and answers 500, or appends one row
    with the next id and answers 200. *)
Lemma post_speedtests_table now body t :
  ((post_speedtests now body t).2 = t /\ status (post_speedtests now body t).1 = 500) \/
  (exists r, (post_speedtests now body t).2 =
               {| rows := rows t ++ [r];
                  seq := Z.max (last_rowid (rows t)) (seq t) + 1 |} /\
             status (post_speedtests now body t).1 = 200 /\
             id r = Z.max (last_rowid (rows t)) (seq t) + 1 /\
             timestamp r = now /\
             Z.max (last_rowid (rows t)) (seq t) < max_rowid).
Proof.
  pose proof (post_speedtests_cases now body t) as H. cbn zeta in H.
  destruct (bind_value (body !! "download_mbps"%string)); [|left; by rewrite H].
  destruct (bind_value (body !! "upload_mbps"%string)); [|left; by rewrite H].
  destruct (bind_value (body !! "ping_ms"%string)); [|left; by rewrite H].
  destruct (Z.ltb_spec (Z.max (last_rowid (rows t)) (seq t)) max_rowid);
    rewrite H; [|by left].
  right. eexists. by repeat split.
Qed.

(** A creation while the ids are below 2^53, where [info.lastInsertRowid] is
    exact: the row that is returned is the row that was appended. *)
Lemma post_speedtests_safe now body t :
  Z.max (last_rowid (rows t)) (seq t) < 2 ^ 53 ->
  let d := bind_value (body !! "download_mbps"%string) in
  let u := bind_value (body !! "upload_mbps"%string) in
  let p := bind_value (body !! "ping_ms"%string) in
  match d, u, p with
  | Ok cd, Ok cu, Ok cp =>
      let i := Z.max (last_rowid (rows t)) (seq t) + 1 in
      let r := mkSpeedTest i now (real_affinity cd) (real_affinity cu) (real_affinity cp) in
      post_speedtests now body t = (json (JsonRow r), {| rows := rows t ++ [r]; seq := i |})
  | _, _, _ => post_speedtests now body t = (internal_error BindTypeError, t)
  end.
Proof.
  intros Hsafe. pose proof (post_speedtests_cases now body t) as H. cbn zeta in *.
  pose proof (last_rowid_nonneg (rows t)) as H0.
  destruct (bind_value (body !! "download_mbps"%string)); [|done].
  destruct (bind_value (body !! "upload_mbps"%string)); [|done].
  destruct (bind_value (body !! "ping_ms"%string)); [|done].
  destruct (Z.ltb_spec (Z.max (last_rowid (rows t)) (seq t)) max_rowid) as [_|Hfull];
    [|unfold max_rowid in Hfull; lia].
  rewrite H, round_to_double_exact by lia.
  rewrite select_by_id_new; [done | lia | done].
Qed.

Lemma post_speedtests_created now body t x :
  Z.max (last_rowid (rows t)) (seq t) < 2 ^ 53 ->
  content_of (post_speedtests now body t).1 = JsonRow x ->
  seq t < id x /\ timestamp x = now /\ seq (post_speedtests now body t).2 = id x /\
  Z.max (last_rowid (rows t)) (seq t) < id x /\
  rows (post_speedtests now body t).2 = rows t ++ [x].
Proof.
  intros Hsafe. pose proof (post_speedtests_safe now body t Hsafe) as H. cbn zeta in H.
  destruct (bind_value (body !! "download_mbps"%string)); [|by rewrite H].
  destruct (bind_value (body !! "upload_mbps"%string)); [|by rewrite H].
  destruct (bind_value (body !! "ping_ms"%string)); [|by rewrite H].
  rewrite H. cbn. intros [= <-]. cbn. repeat split; lia.
Qed.

Lemma post_speedtests_seq now body t : seq t <= seq (post_speedtests now body t).2.
Proof.
  destruct (post_speedtests_table now body t) as [[-> _]|(r & -> & _)]; cbn; lia.
Qed.

Lemma handle_seq now rq t : seq t <= seq (handle now rq t).2.
Proof. destruct rq; cbn [handle]; [done| apply post_speedtests_seq |done..]. Qed.



Lemma handle_created now rq t x :
  Z.max (last_rowid (rows t)) (seq t) < 2 ^ 53 ->
  created_by (handle now rq t).1 = Some x ->
  seq t < id x /\ timestamp x = now /\ seq (handle now rq t).2 = id x.
Proof.
  intros Hsafe. unfold created_by. destruct rq; cbn [handle]; try done.
  destruct (content_of (post_speedtests now body t).1) eqn:E; try done.
  destruct (ok _); [|done]. intros [= ->].
  apply (post_speedtests_created now body t x Hsafe) in E. tauto.
Qed.

Lemma serve_cons now rq reqs t :
  serve ((now, rq) :: reqs) t =
    ((handle now rq t).1 :: (serve reqs (handle now rq t).2).1,
     (serve reqs (handle now rq t).2).2).
Proof.
  cbn [serve]. destruct (handle now rq t) as [r t1]. cbn.
  by destruct (serve reqs t1).
Qed.






Lemma bind_value_bindable v :
  match bind_value v with
  | Ok _ => bindable v = true
  | Raise _ => bindable v = false
  end.
Proof. by destruct v as [[]|]. Qed.

(** C1, as stated, fails: a creation whose download_mbps is the text "fast",
    and one that has no upload_mbps at all, are answered 200 and each adds a
    row to the store. *)
Lemma post_speedtests_accepts_malformed :
  let text := {[ "download_mbps"%string := JStr "fast"; "upload_mbps"%string := JNum 32;
                 "ping_ms"%string := JNum 20 ]} in
  let missing := {[ "download_mbps"%string := JNum 40; "ping_ms"%string := JNum 20 ]} in
  post_speedtests 5 text (mkTable [] 0) =
    (json (JsonRow (mkSpeedTest 1 5 (SqlText "fast") (SqlReal 32) (SqlReal 20))),
     mkTable [mkSpeedTest 1 5 (SqlText "fast") (SqlReal 32) (SqlReal 20)] 1) /\
  post_speedtests 5 missing (mkTable [] 0) =
    (json (JsonRow (mkSpeedTest 1 5 (SqlReal 40) SqlNull (SqlReal 20))),
     mkTable [mkSpeedTest 1 5 (SqlReal 40) SqlNull (SqlReal 20)] 1) /\
  client_error (post_speedtests 5 text (mkTable [] 0)).1 = false /\
  client_error (post_speedtests 5 missing (mkTable [] 0)).1 = false.
Proof. repeat split; vm_compute; reflexivity. Qed.

(** C1, amended: the handler validates nothing.  For a body whose metrics
    are JSON scalars or missing it never answers with a client error.  When
    each of the three metrics is a number, a string, null or missing, and
    the ids are below 2^53, the record is inserted and returned with status
    200: a missing or null metric as NULL, a number as it is, a string that
    spells a number as that number and any other string as the text it is.
    When one of them is a boolean, the driver refuses to bind it: the answer
    is the server error 500 and nothing is inserted. *)
Theorem post_speedtests_no_validation (now : Z) (body : gmap string jsval) (t : table) :
  let d := body !! "download_mbps"%string in
  let u := body !! "upload_mbps"%string in
  let p := body !! "ping_ms"%string in
  let r := (post_speedtests now body t).1 in
  let t' := (post_speedtests now body t).2 in
  client_error r = false /\
  (bindable d && bindable u && bindable p = true ->
   Z.max (last_rowid (rows t)) (seq t) < 2 ^ 53 ->
   exists x, r = json (JsonRow x) /\ rows t' = rows t ++ [x] /\
             stored d = Ok (download_mbps x) /\
             stored u = Ok (upload_mbps x) /\
             stored p = Ok (ping_ms x)) /\
  (bindable d && bindable u && bindable p = false -> status r = 500 /\ t' = t).
Proof.
  cbn zeta. split; [|split].
  - destruct (post_speedtests_table now body t) as [[_ H]|(r & _ & H & _)];
      unfold client_error; by rewrite H.
  - intros Hbind Hsafe.
    pose proof (post_speedtests_safe now body t Hsafe) as H. cbn zeta in H.
    pose proof (bind_value_bindable (body !! "download_mbps"%string)) as Hd.
    pose proof (bind_value_bindable (body !! "upload_mbps"%string)) as Hu.
    pose proof (bind_value_bindable (body !! "ping_ms"%string)) as Hp.
    unfold stored.
    destruct (bind_value (body !! "download_mbps"%string)) as [cd|];
      [|rewrite Hd in Hbind; done].
    destruct (bind_value (body !! "upload_mbps"%string)) as [cu|];
      [|rewrite Hd, Hu in Hbind; done].
    destruct (bind_value (body !! "ping_ms"%string)) as [cp|];
      [|rewrite Hd, Hu, Hp in Hbind; done].
    rewrite H. eexists. repeat split; reflexivity.
  - intros Hbind.
    pose proof (post_speedtests_cases now body t) as H. cbn zeta in H.
    pose proof (bind_value_bindable (body !! "download_mbps"%string)) as Hd.
    pose proof (bind_value_bindable (body !! "upload_mbps"%string)) as Hu.
    pose proof (bind_value_bindable (body !! "ping_ms"%string)) as Hp.
    destruct (bind_value (body !! "download_mbps"%string)) as [cd|]; [|by rewrite H].
    destruct (bind_value (body !! "upload_mbps"%string)) as [cu|]; [|by rewrite H].
    destruct (bind_value (body !! "ping_ms"%string)) as [cp|]; [|by rewrite H].
    rewrite Hd, Hu, Hp in Hbind. done.
Qed.

Lemma post_speedtests_no_validation_witness :
  let body := {[ "download_mbps"%string := JStr "12.5"; "upload_mbps"%string := JStr "fast";
                 "ping_ms"%string := JNum 20 ]} in
  let flag := {[ "download_mbps"%string := JBool true; "ping_ms"%string := JNum 20 ]} in
  (exists x, (post_speedtests 5 body (mkTable [] 0)).1 = json (JsonRow x) /\
             rows (post_speedtests 5 body (mkTable [] 0)).2 = [x] /\
             Ok (SqlReal 12.5) = Ok (download_mbps x) /\
             Ok (SqlText "fast") = Ok (upload_mbps x) /\
             Ok (SqlReal 20) = Ok (ping_ms x)) /\
  (status (post_speedtests 5 flag (mkTable [] 0)).1 = 500 /\
   (post_speedtests 5 flag (mkTable [] 0)).2 = mkTable [] 0).
Proof.
  intros body flag. split.
  - apply (post_speedtests_no_validation 5 body (mkTable [] 0)).
    + vm_compute. reflexivity.
    + vm_compute. reflexivity.
  - apply (post_speedtests_no_validation 5 flag (mkTable [] 0)).
    vm_compute. reflexivity.
Defined.

(** * Properties of the client *)

(** ** Throughput *)

(** C4: 5 * 2^20 bytes received between two clock readings 1000 ms apart
    give download_mbps = 40, and 2 * 2^20 bytes sent between two readings
    500 ms apart give upload_mbps = 32; these are the sizes of the payload
    the server sends and of the blob the client uploads. *)
Theorem mbps_examples (start finish : float) :
  payload_size = 5 * 2 ^ 20 /\ upload_size = 2 * 2 ^ 20 /\
  ((finish - start)%float = 1000%float ->
   mbps (float_of_Z (5 * 2 ^ 20)) start finish = 40%float) /\
  ((finish - start)%float = 500%float ->
   mbps (float_of_Z (2 * 2 ^ 20)) start finish = 32%float).
Proof.
  split; [reflexivity|]. split; [reflexivity|].
  split; intros H; unfold mbps; rewrite H; vm_compute; reflexivity.
Qed.

Lemma mbps_examples_witness :
  mbps (float_of_Z (5 * 2 ^ 20)) 20 1020 = 40%float /\
  mbps (float_of_Z (2 * 2 ^ 20)) 1020 1520 = 32%float.
Proof.
  split.
  - apply (mbps_examples 20 1020). vm_compute. reflexivity.
  - apply (mbps_examples 1020 1520). vm_compute. reflexivity.
Defined.

(** ** What reaches the store *)

Lemma bind_json_number x : bind_value (Some (json_number x)) = Ok (cell_of_number x).
Proof.
  unfold json_number, cell_of_number.
  destruct (is_nan x || is_infinity x); [done|]. by destruct (is_zero x).
Qed.


Lemma save_body_lookup d u p :
  save_body d u p !! "download_mbps"%string = Some (json_number (toFixed2 d)) /\
  save_body d u p !! "upload_mbps"%string = Some (json_number (toFixed2 u)) /\
  save_body d u p !! "ping_ms"%string = Some (json_number (toFixed2 p)).
Proof. unfold save_body. by repeat split. Qed.

Lemma real_affinity_number x : real_affinity (cell_of_number x) = cell_of_number x.
Proof.
  unfold cell_of_number.
  destruct (is_nan x) eqn:En; [done|]. cbn [orb].
  destruct (is_infinity x); [done|].
  destruct (is_zero x) eqn:E; cbn [real_affinity]; [reflexivity|]. by rewrite En, E.
Qed.

(** The answer of the server to the record the client sends, while the ids
    are below 2^53. *)
Lemma post_speedtests_save_body now d u p t :
  Z.max (last_rowid (rows t)) (seq t) < 2 ^ 53 ->
  let i := Z.max (last_rowid (rows t)) (seq t) + 1 in
  let r := mkSpeedTest i now (cell_of_number (toFixed2 d))
             (cell_of_number (toFixed2 u)) (cell_of_number (toFixed2 p)) in
  post_speedtests now (save_body d u p) t =
    (json (JsonRow r), {| rows := rows t ++ [r]; seq := i |}).
Proof.
  intros Hsafe. cbn zeta.
  pose proof (post_speedtests_safe now (save_body d u p) t Hsafe) as H.
  cbn zeta in H. destruct (save_body_lookup d u p) as (Ld & Lu & Lp).
  by rewrite Ld, Lu, Lp, !bind_json_number, !real_affinity_number in H.
Qed.

(** The same for any id: the row is appended and the answer is a 200, with
    whatever the look-up of the new id finds. *)
Lemma post_speedtests_saved now d u p t :
  Z.max (last_rowid (rows t)) (seq t) < max_rowid ->
  let i := Z.max (last_rowid (rows t)) (seq t) + 1 in
  let r := mkSpeedTest i now (cell_of_number (toFixed2 d))
             (cell_of_number (toFixed2 u)) (cell_of_number (toFixed2 p)) in
  exists c, post_speedtests now (save_body d u p) t =
              (json c, {| rows := rows t ++ [r]; seq := i |}).
Proof.
  intros Hroom. cbn zeta.
  pose proof (post_speedtests_cases now (save_body d u p) t) as H.
  cbn zeta in H. destruct (save_body_lookup d u p) as (Ld & Lu & Lp).
  rewrite Ld, Lu, Lp, !bind_json_number, !real_affinity_number in H.
  apply Z.ltb_lt in Hroom. rewrite Hroom in H. eauto.
Qed.

(** A transfer that takes no time on the clock: the quotient is infinite,
    prints as Infinity, is serialised as null and stored as NULL. *)
Lemma zero_duration_null (jl : content -> Z) (start finish : float) :
  (finish - start)%float = 0%float ->
  mbps (blob_size jl (Bytes payload_size)) start finish = infinity /\
  mbps (float_of_Z upload_size) start finish = infinity /\
  cell_of_number (toFixed2 infinity) = SqlNull.
Proof.
  intros H. unfold mbps. rewrite H. repeat split; vm_compute; reflexivity.
Qed.

(** ** One run *)

#[local] Opaque mbps toFixed2 json_number float_of_Z save_body post_speedtests
  PrimFloat.sub take.

Ltac run_symbolically :=
  repeat first
    [ progress cbn
    | progress unfold fetch_settles, body_settles
    | match goal with
      | |- context [link_at ?w ?n] => destruct (link_at w n) eqn:?
      | |- context [body_at ?w ?n] => destruct (body_at w n) eqn:?
      end ].

(** C3: when the request of the ping, of the payload or of the upload is
    rejected, or the body of the payload does not arrive, the run ends with
    the error message set and the running flag cleared; the creation request
    is never sent (the run stops before its interaction 10), so the store and
    the list of tests are what they were. *)
Theorem probe_failure_aborts (w : World) (s : Sys) :
  isRunning (ui s) = false ->
  probe_fails w (tick s) ->
  let s' := run_test w s in
  error (ui s') = Some test_failed /\
  isRunning (ui s') = false /\
  store s' = store s /\
  tests (ui s') = tests (ui s) /\
  (tick s' < 10 + tick s)%nat.
Proof.
  intros Hidle Hfail. unfold run_test, runSpeedTest. rewrite Hidle.
  destruct s as [st t n]. unfold probe_fails in Hfail. cbn in Hfail.
  run_symbolically; repeat split; try lia;
    exfalso; destruct Hfail as [?|[?|[?|?]]]; congruence.
Qed.

Lemma probe_failure_aborts_witness :
  let w := mkWorld (fun _ => 0%float)
             (fun n => if (n =? 4)%nat then RequestLost else Delivered)
             (fun _ => true) (fun _ => 1700000000) (fun _ => 0) in
  let s := mkSys (mkState [] false false None None) (mkTable [] 0) 0 in
  error (ui (run_test w s)) = Some test_failed /\
  isRunning (ui (run_test w s)) = false /\
  store (run_test w s) = store s /\
  tests (ui (run_test w s)) = tests (ui s) /\
  (tick (run_test w s) < 10 + tick s)%nat.
Proof.
  intros w s.
  apply (probe_failure_aborts w s); [reflexivity|].
  right. left. discriminate.
Defined.




(** ** Calls that overlap *)

















(** *** The page as events arrive *)












Lemma current_calls_settle w n a : current_calls w (repeat (Settle 0) n) a.
Proof. revert a. induction n as [|n IH]; intros a; cbn; auto. Qed.

(** *** The records of one run *)






(** C8 fails on the code.  The guard of [runSpeedTest] reads the
    [isRunning] that the callback captured at its render, not the flag of
    the component.  Two calls through the callback of one render, the
    second before the render that follows the first, both pass the guard:
    two tests are in flight and two records are created. *)
Theorem stale_callback_runs_two_tests :
  let a0 := mkApp (mkSys (mkState [] false false None None) (mkTable [] 0) 0) [] in
  let started := run_events frozen_download [Invoke false; Invoke false] a0 in
  let ended := run_events frozen_download (repeat (Settle 0) 12) started in
  isRunning (ui (sys (step frozen_download a0 (Invoke false)))) = true /\
  length (in_flight started) = 2%nat /\
  in_flight ended = [] /\
  id <$> rows (store (sys ended)) = [1; 2] /\
  error (ui (sys ended)) = None.
Proof.
  cbn zeta. repeat split; vm_compute; reflexivity.
Qed.

(** A run in which everything arrives: 20 ms of ping, the payload in one
    second, the upload in half a second. *)
Example run_test_good_network :
  let w := mkWorld (fun n => match n with
                             | 2%nat | 3%nat => 20
                             | 6%nat | 7%nat => 1020
                             | 9%nat => 1520
                             | _ => 0
                             end%float)
             (fun _ => Delivered) (fun _ => true) (fun _ => 1700000000) (fun _ => 0) in
  let s := mkSys (mkState [] false false None None) (mkTable [] 0) 0 in
  rows (store (run_test w s)) =
    [mkSpeedTest 1 1700000000 (SqlReal 40) (SqlReal 32) (SqlReal 20)] /\
  ui (run_test w s) =
    mkState [mkSpeedTest 1 1700000000 (SqlReal 40) (SqlReal 32) (SqlReal 20)]
      false false (Some 1700000000) None.
Proof. split; vm_compute; reflexivity. Qed.

(** A run in which the clock steps back by one second while the payload is
    downloaded: the throughput is negative and is stored as it is. *)
Example run_test_clock_steps_back :
  let w := mkWorld (fun n => match n with
                             | 2%nat => 20
                             | 3%nat => 1020
                             | 6%nat => 20
                             | 7%nat => 1020
                             | 9%nat => 1520
                             | _ => 0
                             end%float)
             (fun _ => Delivered) (fun _ => true) (fun _ => 1700000000) (fun _ => 0) in
  let s := mkSys (mkState [] false false None None) (mkTable [] 0) 0 in
  rows (store (run_test w s)) =
    [mkSpeedTest 1 1700000000 (SqlReal (-40)) (SqlReal 32) (SqlReal 20)] /\
  error (ui (run_test w s)) = None.
Proof. split; vm_compute; reflexivity. Qed.

(** * Further properties of the server *)

(** ** The table *)

Lemma well_kept_last_rowid t : well_kept t -> Z.max (last_rowid (rows t)) (seq t) = seq t.
Proof.
  intros (_ & H & H0). unfold last_rowid.
  assert (foldr Z.max 0 (id <$> rows t) <= seq t); [|lia].
  induction H as [|r l Hr _ IH]; cbn; lia.
Qed.

Lemma well_kept_empty : well_kept {| rows := []; seq := 0 |}.
Proof. repeat split; cbn; try constructor. lia. Qed.

(** A creation on a well-kept table, by cases. *)
Lemma post_speedtests_well_kept now body t :
  well_kept t ->
  (post_speedtests now body t).2 = t \/
  exists x, (post_speedtests now body t).2 = {| rows := rows t ++ [x]; seq := seq t + 1 |} /\
            id x = seq t + 1 /\ timestamp x = now.
Proof.
  intros Hk.
  destruct (post_speedtests_table now body t) as [[H _]|(r & H & _ & Hid & Hts & _)];
    [by left|].
  rewrite (well_kept_last_rowid t Hk) in H, Hid. right. exists r. auto.
Qed.

Lemma handle_well_kept now rq t : well_kept t -> well_kept (handle now rq t).2.
Proof.
  intros Hk. destruct rq; cbn [handle]; try exact Hk.
  - destruct (post_speedtests_well_kept now body t Hk) as [->|(x & -> & Hx & _)];
      [exact Hk|].
    destruct Hk as (Hs & Hb & H0). repeat split; cbn [rows seq]; [| |lia].
    + apply StronglySorted_app_2; [|exact Hs | repeat constructor].
      intros a b Ha Hb'. apply list_elem_of_singleton in Hb' as ->.
      rewrite Forall_forall in Hb. specialize (Hb a Ha). lia.
    + apply Forall_app. split.
      * eapply Forall_impl; [exact Hb|]. cbn. lia.
      * repeat constructor; lia.
  - destruct Hk as (_ & _ & H0). repeat split; cbn; [constructor..|exact H0].
Qed.

Lemma serve_well_kept reqs : forall t, well_kept t -> well_kept (serve reqs t).2.
Proof.
  induction reqs as [|[now rq] reqs IH]; intros t Hk; [done|].
  rewrite serve_cons. cbn [snd]. by apply IH, handle_well_kept.
Qed.

Lemma serve_seq reqs : forall t, seq t <= seq (serve reqs t).2.
Proof.
  induction reqs as [|[now rq] reqs IH]; intros t; [done|].
  rewrite serve_cons. cbn [snd].
  etrans; [apply (handle_seq now rq t) | apply IH].
Qed.

(** X1: whatever requests the server handles, starting from the table that
    the initialisation creates or from any table that is well kept, the ids
    of the stored records stay distinct, positive, increasing in the order
    of insertion, and bounded by the sequence. *)
Theorem table_stays_well_kept (reqs : list (Z * request)) (t : table) :
  well_kept t ->
  well_kept (serve reqs t).2 /\ NoDup (id <$> rows (serve reqs t).2).
Proof.
  intros Hk. apply (serve_well_kept reqs) in Hk. split; [exact Hk|].
  destruct Hk as (Hs & _). induction Hs as [|r l _ IH Hr]; cbn; constructor; [|done].
  intros Hin. apply list_elem_of_fmap in Hin as (y & Hy & Hin).
  rewrite Forall_forall in Hr. specialize (Hr y Hin). lia.
Qed.

Lemma table_stays_well_kept_witness :
  let body := {[ "download_mbps"%string := JNum 40; "ping_ms"%string := JNum 20 ]} in
  let reqs := [(5, PostSpeedtests body); (5, DeleteSpeedtests); (9, PostSpeedtests body)] in
  well_kept (serve reqs {| rows := []; seq := 0 |}).2 /\
  NoDup (id <$> rows (serve reqs {| rows := []; seq := 0 |}).2).
Proof.
  intros body reqs.
  apply (table_stays_well_kept reqs {| rows := []; seq := 0 |}).
  repeat split; cbn; try constructor. lia.
Defined.

(** X2: no request other than the clearing one removes or changes a stored
    record: the rows before it are the first rows after it, as they were. *)
Theorem rows_are_kept (reqs : list (Z * request)) (t : table) :
  Forall (fun p => p.2 <> DeleteSpeedtests) reqs ->
  rows t `prefix_of` rows (serve reqs t).2.
Proof.
  revert t. induction reqs as [|[now rq] reqs IH]; intros t Hall; [done|].
  apply Forall_cons in Hall as [Hrq Hall]. rewrite serve_cons. cbn [snd].
  etrans; [|apply IH, Hall].
  destruct rq; cbn [handle]; try done.
  destruct (post_speedtests_table now body t) as [[-> _]|(r & -> & _)]; [done|].
  cbn. by apply prefix_app_r.
Qed.

Lemma rows_are_kept_witness :
  let body := {[ "download_mbps"%string := JNum 40; "ping_ms"%string := JNum 20 ]} in
  let t := mkTable [mkSpeedTest 1 3 (SqlReal 40) SqlNull (SqlReal 20)] 1 in
  rows t `prefix_of` rows (serve [(5, PostSpeedtests body); (6, GetSpeedtests)] t).2.
Proof.
  intros body t.
  apply (rows_are_kept [(5, PostSpeedtests body); (6, GetSpeedtests)] t).
  repeat constructor; discriminate.
Defined.

(** X3: while the id sequence is below 2^53, an id is never given twice,
    whatever is cleared in between: the record that a creation returns has
    an id greater than the id of every record that the table held at any
    earlier time. *)
Theorem ids_are_not_reused (reqs : list (Z * request)) (now : Z)
    (body : gmap string jsval) (t : table) (x : SpeedTest) :
  well_kept t ->
  seq (serve reqs t).2 < 2 ^ 53 ->
  created_by (handle now (PostSpeedtests body) (serve reqs t).2).1 = Some x ->
  Forall (fun r => id r < id x) (rows t).
Proof.
  intros Hk Hsafe Hx.
  pose proof (well_kept_last_rowid _ (serve_well_kept reqs t Hk)) as Hmax.
  apply handle_created in Hx as (Hx & _); [|by rewrite Hmax].
  destruct Hk as (_ & Hb & _).
  pose proof (serve_seq reqs t). eapply Forall_impl; [exact Hb|]. cbn. lia.
Qed.

Lemma ids_are_not_reused_witness :
  let t := mkTable [mkSpeedTest 1 3 (SqlReal 40) SqlNull (SqlReal 20)] 1 in
  Forall (fun r => id r < 2) (rows t).
Proof.
  intros t.
  apply (ids_are_not_reused [(4, DeleteSpeedtests)] 5
           {[ "download_mbps"%string := JNum 40; "ping_ms"%string := JNum 20 ]} t
           (mkSpeedTest 2 5 (SqlReal 40) SqlNull (SqlReal 20))).
  - split; [|split]; cbn; try (repeat constructor); cbn; lia.
  - vm_compute. reflexivity.
  - vm_compute. reflexivity.
Defined.

(** X4: once the largest rowid has been given, no record can be created any
    more: whatever the body, the creation is answered 500 and the table is
    left as it was. *)
Theorem sequence_exhausted (now : Z) (body : gmap string jsval) (t : table) :
  max_rowid <= Z.max (last_rowid (rows t)) (seq t) ->
  status (post_speedtests now body t).1 = 500 /\ (post_speedtests now body t).2 = t.
Proof.
  intros Hfull.
  destruct (post_speedtests_table now body t) as [[H1 H2]|(r & _ & _ & _ & _ & Hroom)];
    [done|lia].
Qed.

Lemma sequence_exhausted_witness :
  let body := {[ "download_mbps"%string := JNum 40; "ping_ms"%string := JNum 20 ]} in
  let t := mkTable [] (2 ^ 63 - 1) in
  status (post_speedtests 5 body t).1 = 500 /\ (post_speedtests 5 body t).2 = t.
Proof.
  intros body t. apply (sequence_exhausted 5 body t). vm_compute. discriminate.
Defined.

(** ** Creation and listing together *)

Lemma order_by_timestamp_desc_latest l x :
  Forall (fun r => timestamp r < timestamp x) l ->
  order_by_timestamp_desc (l ++ [x]) = x :: order_by_timestamp_desc l.
Proof.
  unfold order_by_timestamp_desc.
  induction 1 as [|a l Ha _ IH]; [done|].
  cbn [app foldr]. rewrite IH. cbn [insert_by_timestamp_desc].
  by destruct (Z.leb_spec (timestamp x) (timestamp a)); [lia|].
Qed.

(** X5: while the ids are below 2^53, the record that a creation returns is
    the one the store then holds under its id, appended to the rows that
    were there; and when the server clock has passed the timestamps of all
    stored records, it is the first record of the listing that follows. *)
Theorem created_record_is_stored (now : Z) (body : gmap string jsval) (t : table)
    (x : SpeedTest) :
  Z.max (last_rowid (rows t)) (seq t) < 2 ^ 53 ->
  created_by (post_speedtests now body t).1 = Some x ->
  select_by_id (id x) (post_speedtests now body t).2 = Some x /\
  rows (post_speedtests now body t).2 = rows t ++ [x] /\
  (Forall (fun r => timestamp r < now) (rows t) ->
   head (rows_of (get_speedtests (post_speedtests now body t).2).1) = Some x).
Proof.
  intros Hsafe. pose proof (post_speedtests_safe now body t Hsafe) as H. cbn zeta in H.
  destruct (bind_value (body !! "download_mbps"%string)); [|by rewrite H].
  destruct (bind_value (body !! "upload_mbps"%string)); [|by rewrite H].
  destruct (bind_value (body !! "ping_ms"%string)); [|by rewrite H].
  rewrite H. cbn. intros [= <-]. cbn [id]. split; [|split; [done|]].
  - apply select_by_id_new; [lia|done].
  - intros Hlate. unfold select_recent. cbn [rows].
    rewrite order_by_timestamp_desc_latest; done.
Qed.

Lemma created_record_is_stored_witness :
  let body := {[ "download_mbps"%string := JNum 40; "ping_ms"%string := JNum 20 ]} in
  let t := mkTable [mkSpeedTest 1 3 (SqlReal 40) SqlNull (SqlReal 20)] 1 in
  let x := mkSpeedTest 2 5 (SqlReal 40) SqlNull (SqlReal 20) in
  head (rows_of (get_speedtests (post_speedtests 5 body t).2).1) = Some x.
Proof.
  intros body t x.
  apply (created_record_is_stored 5 body t x).
  - vm_compute. reflexivity.
  - vm_compute. reflexivity.
  - repeat constructor.
Defined.

Lemma insert_by_timestamp_desc_order r l :
  Forall (fun y => id r < id y) l ->
  StronglySorted listing_order l ->
  StronglySorted listing_order (insert_by_timestamp_desc r l).
Proof.
  intros Hid Hl. induction Hl as [|y l Hl IH Hy]; cbn; [repeat constructor|].
  apply Forall_cons in Hid as [Hidy Hid].
  destruct (Z.leb_spec (timestamp y) (timestamp r)) as [Hle|Hlt].
  - constructor; [by constructor|].
    constructor.
    + unfold listing_order. lia.
    + rewrite Forall_forall in Hy, Hid. apply Forall_forall. intros z Hz.
      specialize (Hy z Hz). specialize (Hid z Hz). unfold listing_order in *. lia.
  - constructor; [by apply IH|].
    rewrite insert_by_timestamp_desc_perm.
    constructor; [unfold listing_order; lia | exact Hy].
Qed.

Lemma order_by_timestamp_desc_order l :
  StronglySorted (fun a b => id a < id b) l ->
  StronglySorted listing_order (order_by_timestamp_desc l).
Proof.
  unfold order_by_timestamp_desc.
  induction 1 as [|x l _ IH Hx]; cbn [foldr]; [constructor|].
  apply insert_by_timestamp_desc_order; [|exact IH].
  fold (order_by_timestamp_desc l). by rewrite order_by_timestamp_desc_perm.
Qed.

(** X6: the order of a listing of a well-kept table, in full: a later
    timestamp comes first and, among the records of one second, the one
    created earlier (the smaller id) comes first. *)
Theorem listing_is_by_time_then_id (t : table) :
  well_kept t ->
  StronglySorted listing_order (rows_of (get_speedtests t).1).
Proof.
  intros (Hs & _). cbn. unfold select_recent.
  by apply StronglySorted_take, order_by_timestamp_desc_order.
Qed.

Lemma listing_is_by_time_then_id_witness :
  let t := mkTable [mkSpeedTest 1 5 SqlNull SqlNull SqlNull;
                    mkSpeedTest 2 5 SqlNull SqlNull SqlNull] 2 in
  StronglySorted listing_order (rows_of (get_speedtests t).1).
Proof.
  intros t. apply (listing_is_by_time_then_id t).
  split; [|split]; cbn; try (repeat constructor); cbn; lia.
Defined.

(** X7: a listing drops nothing that the limit does not force it to: it has
    100 records when the store has more, and otherwise all records of the
    store, each once. *)
Theorem listing_is_complete (t : table) :
  length (rows_of (get_speedtests t).1) = (100 `min` length (rows t))%nat /\
  ((length (rows t) <= 100)%nat -> rows_of (get_speedtests t).1 ≡ₚ rows t).
Proof.
  cbn. unfold select_recent.
  pose proof (Permutation_length (order_by_timestamp_desc_perm (rows t))) as Hlen.
  split.
  - by rewrite length_take, Hlen.
  - intros Hle. rewrite take_ge by lia. apply order_by_timestamp_desc_perm.
Qed.

Lemma listing_is_complete_witness :
  let t := mkTable [mkSpeedTest 1 5 SqlNull SqlNull SqlNull;
                    mkSpeedTest 2 7 SqlNull SqlNull SqlNull] 2 in
  rows_of (get_speedtests t).1 ≡ₚ rows t.
Proof.
  intros t. apply (listing_is_complete t). cbn. lia.
Defined.

(** ** Initialisation and the records *)

(** X8: the initialisation loses nothing: whatever the database file held
    (no table, the table of an older installation without the upload
    column, or the present table), it ends without an exception with the
    present table, in which every record has the id, timestamp, download and
    ping it had, its upload if it had one and NULL if not, and the id
    sequence is the one of the file. *)
Theorem init_schema_keeps_records (d : database) :
  exists t, init_schema d = Ok (Speedtests t) /\
            records (Speedtests t) = with_upload <$> records d /\
            seq t = sequence d.
Proof.
  destruct d as [|rs s|t]; cbn; eexists; (split; [reflexivity|]); split; try done;
    cbn [rows]; rewrite <- ?list_fmap_compose; by apply list_fmap_ext.
Qed.

(** * Further properties of the client *)

(** ** How a run ends *)

Lemma post_speedtests_returns now body t x :
  Z.max (last_rowid (rows t)) (seq t) < 2 ^ 53 ->
  content_of (post_speedtests now body t).1 = JsonRow x ->
  rows (post_speedtests now body t).2 = rows t ++ [x].
Proof. intros Hsafe E. apply (post_speedtests_created now body t x Hsafe) in E. tauto. Qed.

(** X9: while the ids are below 2^53, a run ends in one of two ways, and in
    both with the running flag cleared and the auto-test switch as it was.  Either it fails: the error
    message is the one of a failed test, and the list of tests and the time
    of the last test are what they were.  Or it succeeds: any earlier error
    message is gone, the record that the server returned, which is the last
    row of the store, is put first in the list, which is cut to 100, and its
    timestamp is the time of the last test. *)
Theorem run_fails_or_saves (w : World) (s : Sys) :
  isRunning (ui s) = false ->
  Z.max (last_rowid (rows (store s))) (seq (store s)) < 2 ^ 53 ->
  let s' := run_test w s in
  isRunning (ui s') = false /\
  autoTestEnabled (ui s') = autoTestEnabled (ui s) /\
  ((error (ui s') = Some test_failed /\
    tests (ui s') = tests (ui s) /\
    lastTestTime (ui s') = lastTestTime (ui s)) \/
   (exists x, error (ui s') = None /\
              tests (ui s') = take 100 (x :: tests (ui s)) /\
              lastTestTime (ui s') = Some (timestamp x) /\
              rows (store s') = rows (store s) ++ [x])).
Proof.
  intros Hidle Hsafe. destruct s as [st t n]. unfold run_test, runSpeedTest.
  cbn [ui store] in *. rewrite Hidle.
  repeat first
    [ progress cbn
    | progress unfold fetch_settles, body_settles
    | match goal with
      | |- context [post_speedtests ?a ?b ?c] =>
          pose proof (fun x => post_speedtests_returns a b c x Hsafe) as Hret;
          destruct (post_speedtests a b c) as [r t']; cbn in Hret
      | |- context [link_at ?w ?n] => destruct (link_at w n)
      | |- context [body_at ?w ?n] => destruct (body_at w n)
      | |- context [negb (ok ?r)] => destruct (ok r)
      | H : forall x, content_of ?r = JsonRow x -> _ |- context [content_of ?r] =>
          destruct (content_of r) as [| x | | | | |] eqn:?;
          [| specialize (H x eq_refl) | | | | |]
      end ];
  (split; [done|]); (split; [done|]);
  first [ by left | right; eexists; by repeat split ].
Qed.

Lemma run_fails_or_saves_witness :
  let s := mkSys (mkState [] false false None None) (mkTable [] 0) 0 in
  let s' := run_test frozen_download s in
  isRunning (ui s') = false /\
  autoTestEnabled (ui s') = autoTestEnabled (ui s) /\
  ((error (ui s') = Some test_failed /\
    tests (ui s') = tests (ui s) /\
    lastTestTime (ui s') = lastTestTime (ui s)) \/
   (exists x, error (ui s') = None /\
              tests (ui s') = take 100 (x :: tests (ui s)) /\
              lastTestTime (ui s') = Some (timestamp x) /\
              rows (store s') = rows (store s) ++ [x])).
Proof.
  intros s. apply (run_fails_or_saves frozen_download s).
  - reflexivity.
  - vm_compute. reflexivity.
Defined.

(** ** Loading and clearing the history *)

(** X10: [fetchHistory] never changes the store, the running flag or the
    auto-test switch.  When the listing is answered and its body arrives,
    the list of tests becomes the listing of the server; the time of the
    last test becomes the timestamp of its first record, and stays what it
    was when the listing is empty; an error message that was shown stays.
    When the request or the body fails, the list and the time stay what they
    were and the message that the history could not be read is set. *)
Theorem load_history_outcomes (w : World) (s : Sys) :
  let s' := load_history w s in
  store s' = store s /\
  isRunning (ui s') = isRunning (ui s) /\
  autoTestEnabled (ui s') = autoTestEnabled (ui s) /\
  match link_at w (tick s), body_at w (1 + tick s) with
  | Delivered, true =>
      tests (ui s') = select_recent (store s) /\
      lastTestTime (ui s') =
        match select_recent (store s) with
        | first :: _ => Some (timestamp first)
        | [] => lastTestTime (ui s)
        end /\
      error (ui s') = error (ui s)
  | _, _ =>
      tests (ui s') = tests (ui s) /\
      lastTestTime (ui s') = lastTestTime (ui s) /\
      error (ui s') = Some history_unreadable
  end.
Proof.
  destruct s as [st t n]. unfold load_history, fetchHistory.
  cbn -[select_recent]. unfold fetch_settles. cbn -[select_recent].
  destruct (link_at w n); cbn -[select_recent]; [|done..].
  destruct (body_at w (S n)); cbn -[select_recent]; [|done].
  destruct (select_recent t); done.
Qed.

(** X11: [clearHistory] does nothing at all when the dialog is declined.
    When it is confirmed and the request is answered, the store has no row
    left (its id sequence is kept) and the page has an empty list and no
    time of a last test.  When the answer is lost, the store has been
    emptied all the same, but the page keeps its list and shows the message
    that the deletion failed.  When the request is lost, store and list stay
    and the same message is shown. *)
Theorem clear_history_outcomes (w : World) (confirmed : bool) (s : Sys) :
  let s' := clear_history w confirmed s in
  if confirmed then
    seq (store s') = seq (store s) /\
    match link_at w (tick s) with
    | Delivered =>
        rows (store s') = [] /\ tests (ui s') = [] /\
        lastTestTime (ui s') = None /\ error (ui s') = error (ui s)
    | ResponseLost =>
        rows (store s') = [] /\ tests (ui s') = tests (ui s) /\
        lastTestTime (ui s') = lastTestTime (ui s) /\
        error (ui s') = Some clear_failed
    | RequestLost =>
        store s' = store s /\ tests (ui s') = tests (ui s) /\
        lastTestTime (ui s') = lastTestTime (ui s) /\
        error (ui s') = Some clear_failed
    end
  else s' = s.
Proof.
  destruct s as [st t n]. unfold clear_history, clearHistory.
  destruct confirmed; [|done].
  cbn. unfold fetch_settles. cbn. by destruct (link_at w n).
Qed.

Lemma run_test_tests w s :
  tests (ui (run_test w s)) = tests (ui s) \/
  exists x, tests (ui (run_test w s)) = take 100 (x :: tests (ui s)).
Proof.
  destruct s as [st t n]. unfold run_test, runSpeedTest. cbn [ui].
  destruct (isRunning st); [by left|].
  repeat first
    [ progress cbn
    | progress unfold fetch_settles, body_settles
    | match goal with
      | |- context [post_speedtests ?a ?b ?c] =>
          destruct (post_speedtests a b c) as [r t']
      | |- context [link_at ?w ?n] => destruct (link_at w n)
      | |- context [body_at ?w ?n] => destruct (body_at w n)
      | |- context [negb (ok ?r)] => destruct (ok r)
      | |- context [content_of ?r] => destruct (content_of r)
      end ];
  first [ by left | right; by eexists ].
Qed.

Lemma load_history_tests w s :
  tests (ui (load_history w s)) = tests (ui s) \/
  tests (ui (load_history w s)) = select_recent (store s).
Proof.
  destruct s as [st t n]. unfold load_history, fetchHistory.
  cbn -[select_recent]. unfold fetch_settles. cbn -[select_recent].
  destruct (link_at w n); cbn -[select_recent]; [|by left..].
  destruct (body_at w (S n)); cbn -[select_recent]; [|by left].
  right. by destruct (select_recent t).
Qed.

Lemma clear_history_tests w confirmed s :
  tests (ui (clear_history w confirmed s)) = tests (ui s) \/
  tests (ui (clear_history w confirmed s)) = [].
Proof.
  destruct s as [st t n]. unfold clear_history, clearHistory.
  destruct confirmed; [|by left].
  cbn. unfold fetch_settles. cbn. destruct (link_at w n); cbn; auto.
Qed.

(** X12: the list of tests of the page never grows beyond 100 records: a
    run, a load and a clearing each leave it with at most 100 when it had at
    most 100. *)
Theorem tests_stay_capped (w : World) (confirmed : bool) (s : Sys) :
  (length (tests (ui s)) <= 100)%nat ->
  (length (tests (ui (run_test w s))) <= 100)%nat /\
  (length (tests (ui (load_history w s))) <= 100)%nat /\
  (length (tests (ui (clear_history w confirmed s))) <= 100)%nat.
Proof.
  intros Hcap. split; [|split].
  - destruct (run_test_tests w s) as [->|[x ->]]; [done|].
    rewrite length_take. lia.
  - destruct (load_history_tests w s) as [->| ->]; [done|].
    unfold select_recent. rewrite length_take. lia.
  - destruct (clear_history_tests w confirmed s) as [->| ->]; [done|]. cbn. lia.
Qed.

Lemma tests_stay_capped_witness :
  let s := mkSys (mkState [] false false None None) (mkTable [] 0) 0 in
  (length (tests (ui (run_test frozen_download s))) <= 100)%nat /\
  (length (tests (ui (load_history frozen_download s))) <= 100)%nat /\
  (length (tests (ui (clear_history frozen_download true s))) <= 100)%nat.
Proof.
  intros s. apply (tests_stay_capped frozen_download true s). cbn. lia.
Defined.

(** ** The page and the store *)

(** The run in which everything arrives, in full. *)
Lemma run_test_arrives (w : World) (s : Sys) :
  isRunning (ui s) = false ->
  all_arrive w (tick s) ->
  Z.max (last_rowid (rows (store s))) (seq (store s)) < 2 ^ 53 ->
  let n := tick s in
  let x := mkSpeedTest (Z.max (last_rowid (rows (store s))) (seq (store s)) + 1)
             (current_timestamp w (10 + n))
             (cell_of_number (toFixed2
                (mbps (blob_size (json_length w) (Bytes payload_size))
                   (now_at w (3 + n)) (now_at w (6 + n)))))
             (cell_of_number (toFixed2
                (mbps (float_of_Z upload_size) (now_at w (7 + n)) (now_at w (9 + n)))))
             (cell_of_number (toFixed2 (now_at w (2 + n) - now_at w n))) in
  run_test w s =
    mkSys (mkState (take 100 (x :: tests (ui s))) false (autoTestEnabled (ui s))
             (Some (timestamp x)) None)
          (mkTable (rows (store s) ++ [x]) (id x))
          (12 + n).
Proof.
  intros Hidle (H1 & H4 & H5 & H8 & H10 & H11) Hroom.
  unfold run_test, runSpeedTest. rewrite Hidle.
  destruct s as [st t n]. cbn in H1, H4, H5, H8, H10, H11. cbn [store] in Hroom.
  repeat first
    [ progress cbn
    | progress unfold fetch_settles, body_settles
    | rewrite H1 | rewrite H4 | rewrite H5 | rewrite H8 | rewrite H10 | rewrite H11
    | rewrite post_speedtests_save_body by exact Hroom ].
  reflexivity.
Qed.

Lemma take_cons_take {A} (x : A) (l : list A) (n : nat) :
  take (S n) (x :: take (S n) l) = take (S n) (x :: l).
Proof. rewrite !firstn_cons, take_take. f_equal. f_equal. lia. Qed.

(** X13: the page stays in step with the server.  While the ids are below
    2^53: when the list of tests is the listing of the store, and a run in
    which everything arrives saves its record at a second of the server
    clock that is later than the timestamps of all stored records, the list
    after the run is the listing of the store after the run. *)
Theorem run_keeps_list_in_step (w : World) (s : Sys) :
  isRunning (ui s) = false ->
  all_arrive w (tick s) ->
  Z.max (last_rowid (rows (store s))) (seq (store s)) < 2 ^ 53 ->
  tests (ui s) = select_recent (store s) ->
  Forall (fun r => timestamp r < current_timestamp w (10 + tick s)) (rows (store s)) ->
  tests (ui (run_test w s)) = select_recent (store (run_test w s)).
Proof.
  intros Hidle Harr Hroom Hsync Hlate.
  rewrite (run_test_arrives w s Hidle Harr Hroom). cbn [ui tests store].
  unfold select_recent in *. cbn [rows].
  rewrite order_by_timestamp_desc_latest by exact Hlate.
  rewrite Hsync. apply (take_cons_take _ _ 99).
Qed.

Lemma run_keeps_list_in_step_witness :
  let older := mkSpeedTest 1 1600000000 (SqlReal 40) SqlNull (SqlReal 20) in
  let old := mkSpeedTest 2 1650000000 (SqlReal 38) (SqlReal 30) (SqlReal 25) in
  let s := mkSys (mkState [old; older] false false (Some 1650000000) None)
             (mkTable [older; old] 2) 0 in
  tests (ui (run_test frozen_download s)) = select_recent (store (run_test frozen_download s)).
Proof.
  intros older old s. apply (run_keeps_list_in_step frozen_download s).
  - reflexivity.
  - repeat split.
  - vm_compute. reflexivity.
  - vm_compute. reflexivity.
  - repeat constructor.
Defined.

(** X14: a record can be saved by a run that reports a failure.  When the
    three probes succeed and the creation request reaches the server, but
    its answer is lost or the body of the answer does not arrive, the store
    holds the new record, while the page shows the error message, keeps its
    list as it was and has cleared the running flag. *)
Theorem lost_answer_leaves_record (w : World) (s : Sys) :
  isRunning (ui s) = false ->
  probes_arrive w (tick s) ->
  Z.max (last_rowid (rows (store s))) (seq (store s)) < max_rowid ->
  link_at w (10 + tick s) = ResponseLost \/
  (link_at w (10 + tick s) = Delivered /\ body_at w (11 + tick s) = false) ->
  let s' := run_test w s in
  (exists x, rows (store s') = rows (store s) ++ [x] /\
             timestamp x = current_timestamp w (10 + tick s)) /\
  tests (ui s') = tests (ui s) /\
  error (ui s') = Some test_failed /\
  isRunning (ui s') = false.
Proof.
  intros Hidle (H1 & H4 & H5 & H8) Hroom Hlost.
  unfold run_test, runSpeedTest. rewrite Hidle.
  destruct s as [st t n]. cbn in H1, H4, H5, H8, Hlost. cbn [store] in Hroom.
  destruct Hlost as [H10|[H10 H11]];
    repeat first
      [ progress cbn
      | progress unfold fetch_settles, body_settles
      | rewrite H1 | rewrite H4 | rewrite H5 | rewrite H8 | rewrite H10 | rewrite H11
      | match goal with
        | |- context [post_speedtests ?a (save_body ?d ?u ?p) ?b] =>
            destruct (post_speedtests_saved a d u p b Hroom) as [c Hc]; rewrite Hc; clear Hc
        end ];
    (split; [eexists; split; reflexivity|]); done.
Qed.

Lemma lost_answer_leaves_record_witness :
  let w := mkWorld (fun _ => 0%float)
             (fun n => if (n =? 10)%nat then ResponseLost else Delivered)
             (fun _ => true) (fun _ => 1700000000) (fun _ => 0) in
  let s := mkSys (mkState [] false false None None) (mkTable [] 0) 0 in
  (exists x, rows (store (run_test w s)) = rows (store s) ++ [x] /\
             timestamp x = current_timestamp w (10 + tick s)) /\
  tests (ui (run_test w s)) = tests (ui s) /\
  error (ui (run_test w s)) = Some test_failed /\
  isRunning (ui (run_test w s)) = false.
Proof.
  intros w s. apply (lost_answer_leaves_record w s).
  - reflexivity.
  - repeat split.
  - vm_compute. reflexivity.
  - left. reflexivity.
Defined.

(** ** The auto-test timer *)

Lemma cleanup_clears st tm :
  settled st tm ->
  intervals (auto_test_cleanup tm) = ∅ /\
  next_handle (auto_test_cleanup tm) = next_handle tm /\
  autoTestIntervalRef (auto_test_cleanup tm) = autoTestIntervalRef tm.
Proof.
  unfold settled, auto_test_cleanup. destruct (autoTestEnabled st).
  - intros (h & t0 & Hr & Hi). rewrite Hr. cbn. rewrite Hi, Hr.
    by rewrite delete_singleton_eq.
  - intros Hi. destruct (autoTestIntervalRef tm) as [h|] eqn:E; cbn; [|done].
    rewrite Hi. by rewrite delete_empty.
Qed.

Lemma effect_sets st now tm :
  intervals tm = ∅ ->
  intervals (auto_test_effect (autoTestEnabled st) now tm) =
    (if autoTestEnabled st then {[ next_handle tm := now ]} else ∅) /\
  settled st (auto_test_effect (autoTestEnabled st) now tm).
Proof.
  intros Hi. unfold settled, auto_test_effect. destruct (autoTestEnabled st); cbn.
  - rewrite Hi, insert_empty. eauto.
  - destruct (autoTestIntervalRef tm); cbn; rewrite Hi; by rewrite ?delete_empty.
Qed.

Lemma mount_settled now st : settled st (mount now st).
Proof. by apply effect_sets. Qed.

Lemma commit_settled now old new tm :
  settled old tm -> settled new (commit now old new tm).
Proof.
  intros Hs. unfold commit. destruct (decide (effect_deps old = effect_deps new)) as [E|_].
  - injection E as E _. unfold settled in *. by rewrite <- E.
  - apply effect_sets. by apply (cleanup_clears old).
Qed.

Lemma commits_settled renders : forall st tm,
  settled st tm -> settled (commits renders st tm).1 (commits renders st tm).2.
Proof.
  induction renders as [|[now st'] renders IH]; intros st tm Hs; [done|].
  cbn [commits]. by apply IH, commit_settled.
Qed.

(** X15: the effect never leaves a timer behind.  From the first render on,
    through any renders, exactly one interval is set while auto-test is
    enabled (the one whose handle the ref holds) and none while it is
    disabled: an interval calls [runSpeedTest] only while auto-test is
    enabled, so that enabling and then disabling it leaves nothing that
    could start a test; and none is set once the component is unmounted. *)
Theorem auto_test_timer (now0 : Z) (st0 : State) (renders : list (Z * State)) :
  let st := (commits renders st0 (mount now0 st0)).1 in
  let tm := (commits renders st0 (mount now0 st0)).2 in
  settled st tm /\
  (forall t, fires_at tm t -> autoTestEnabled st = true) /\
  intervals (unmount tm) = ∅.
Proof.
  cbn zeta.
  pose proof (commits_settled renders st0 _ (mount_settled now0 st0)) as Hs.
  split; [exact Hs|]. split.
  - intros t (h & t0 & k & Hh & _). unfold settled in Hs.
    destruct (autoTestEnabled _); [done|]. rewrite Hs in Hh. done.
  - by apply (cleanup_clears _ _ Hs).
Qed.

(** X16: the interval is set anew whenever the auto-test switch or the
    running flag has changed from one render to the next.  After such a
    render at the time [now], an interval calls [runSpeedTest] only if
    auto-test is enabled, and not before [now] plus 30 minutes: every start
    and every end of a test puts off the next automatic test to 30 minutes
    later. *)
Theorem timer_restarts (now : Z) (old new : State) (tm : Timers) (t : Z) :
  settled old tm ->
  effect_deps old <> effect_deps new ->
  fires_at (commit now old new tm) t ->
  autoTestEnabled new = true /\ now + auto_test_period <= t /\
  intervals (commit now old new tm) = {[ next_handle tm := now ]}.
Proof.
  intros Hs Hdeps (h & t0 & k & Hh & Hk & ->). unfold commit in *.
  destruct (decide (effect_deps old = effect_deps new)); [done|].
  destruct (cleanup_clears old tm Hs) as (Hi & Hn & _).
  destruct (effect_sets new now _ Hi) as [He _]. rewrite He, Hn in Hh |- *.
  destruct (autoTestEnabled new); [|done].
  apply lookup_singleton_Some in Hh as [_ <-].
  unfold auto_test_period. repeat split; nia.
Qed.

Lemma timer_restarts_witness :
  let old := mkState [] false true None None in
  let new := mkState [] true true None None in
  autoTestEnabled new = true /\ 5000 + auto_test_period <= 5000 + 2 * auto_test_period /\
  intervals (commit 5000 old new (mount 0 old)) = {[ next_handle (mount 0 old) := 5000 ]}.
Proof.
  intros old new.
  apply (timer_restarts 5000 old new (mount 0 old)).
  - cbn. eauto.
  - discriminate.
  - exists 2%positive, 5000, 2. split; [|split]; [vm_compute; reflexivity | lia | reflexivity].
Defined.

(** ** Rendering *)

Section RenderProperties.

Variable spells_number : string -> option float.

Lemma toFixed_ok digits v :
  (exists x, v = JNum x) <-> exists r, toFixed digits v = Ok r.
Proof.
  split.
  - intros [x ->]. cbn. eauto.
  - intros [r H]. destruct v; try done. eauto.
Qed.

Lemma toFixed_or_dashes_ok digits v :
  (v = JNull \/ exists x, v = JNum x) <-> exists r, toFixed_or_dashes digits v = Ok r.
Proof.
  split.
  - intros [->|[x ->]]; cbn; eauto.
  - intros [r H]. destruct v; try done; eauto.
Qed.

Lemma render_row_ok t :
  displayable spells_number t <-> exists r, render_row spells_number t = Ok r.
Proof.
  unfold displayable, render_row. split.
  - intros ([d ->] & [->|[u ->]] & [p ->]); cbn; eauto.
  - intros [r H].
    destruct (toFixed 2 _) as [d|] eqn:Ed; [|done]. cbn in H.
    destruct (toFixed_or_dashes 2 _) as [u|] eqn:Eu; [|done]. cbn in H.
    destruct (toFixed 0 _) as [p|] eqn:Ep; [|done].
    split; [|split].
    + apply (toFixed_ok 2). eauto.
    + apply (toFixed_or_dashes_ok 2). eauto.
    + apply (toFixed_ok 0). eauto.
Qed.

Lemma render_cards_ok t :
  displayable spells_number t -> exists c, render_cards spells_number (Some t) = Ok c.
Proof.
  unfold displayable, render_cards.
  intros ([d ->] & [->|[u ->]] & [p ->]); cbn; eauto.
Qed.

Lemma render_rows_ok l :
  Forall (displayable spells_number) l <->
  exists rs, render_rows spells_number l = Ok rs /\ length rs = length l.
Proof.
  induction l as [|t l IH]; cbn [render_rows].
  - split; [eauto|constructor].
  - rewrite Forall_cons, IH, render_row_ok. split.
    + intros ([r ->] & rs & -> & Hlen). cbn. eexists. split; [done|]. cbn. lia.
    + intros (rs & H & Hlen).
      destruct (render_row spells_number t) as [r|]; [|done]. cbn in H.
      destruct (render_rows spells_number l) as [rs'|]; [|done]. cbn in H.
      injection H as <-. cbn in Hlen. split; eauto.
Qed.

Lemma render_rows_length l : forall rs,
  render_rows spells_number l = Ok rs -> length rs = length l.
Proof.
  induction l as [|t l IH]; intros rs E; cbn in E.
  - by injection E as <-.
  - destruct (render_row spells_number t) as [r|]; [|done]. cbn in E.
    destruct (render_rows spells_number l) as [rs'|]; [|done]. cbn in E.
    injection E as <-. cbn. by rewrite (IH rs').
Qed.

(** X17: a render succeeds exactly when the page can show every record of
    its list: the download and the ping of each are numbers and its upload
    is a number or null.  It then shows the list oldest first in the chart
    and one row per record in the table, the error message if there is one,
    and the run button disabled while a test runs.  When some record has a
    download or a ping that is null or not a number, or an upload that is
    not a number and not null, the render throws. *)
Theorem render_succeeds_iff (st : State) :
  (Forall (displayable spells_number) (tests st) ->
   exists v, render spells_number st = Ok v /\
             chartData v = reverse (tests st) /\
             length (history v) = length (tests st) /\
             banner v = error st /\
             run_disabled v = isRunning st) /\
  (~ Forall (displayable spells_number) (tests st) ->
   exists e, render spells_number st = Raise e).
Proof.
  unfold render, latestTest. split.
  - intros Hall.
    assert (exists c, render_cards spells_number (head (tests st)) = Ok c) as [c ->].
    { destruct Hall as [|t l Ht _]; cbn; [eauto|]. by apply render_cards_ok. }
    apply render_rows_ok in Hall as (rs & -> & Hlen). cbn. eauto 10.
  - intros Hnot.
    destruct (render_cards spells_number (head (tests st))) as [c|e]; cbn; [|eauto].
    destruct (render_rows spells_number (tests st)) as [rs|e] eqn:E; cbn; [|eauto].
    destruct Hnot. apply render_rows_ok.
    exists rs. split; [done|]. by eapply render_rows_length.
Qed.

Lemma take_100_cons {A} (x : A) (l : list A) : take 100 (x :: l) = x :: take 99 l.
Proof. exact (firstn_cons 99 x l). Qed.

(** X18: a run can leave the page unable to render.  While the ids are
    below 2^53: when everything arrives and the download takes 0 ms on the
    clock, the record that the run puts first in the list has null as its
    download, and the next render throws on the card of the latest
    download. *)
Theorem zero_duration_breaks_render (w : World) (s : Sys) :
  isRunning (ui s) = false ->
  all_arrive w (tick s) ->
  Z.max (last_rowid (rows (store s))) (seq (store s)) < 2 ^ 53 ->
  (now_at w (6 + tick s) - now_at w (3 + tick s))%float = 0%float ->
  (exists x, head (tests (ui (run_test w s))) = Some x /\ download_mbps x = SqlNull) /\
  exists e, render spells_number (ui (run_test w s)) = Raise e.
Proof.
  intros Hidle Harr Hroom Hzero.
  rewrite (run_test_arrives w s Hidle Harr Hroom). unfold render, latestTest.
  cbn [ui tests]. rewrite take_100_cons. cbn [head render_cards download_mbps].
  destruct (zero_duration_null (json_length w) _ _ Hzero) as (-> & _ & ->).
  split; [eexists; split; reflexivity|]. cbn. eauto.
Qed.

End RenderProperties.

Lemma render_succeeds_iff_witness :
  let good := mkState [mkSpeedTest 1 5 (SqlReal 40) SqlNull (SqlReal 20)]
                false false None None in
  let bad := mkState [mkSpeedTest 1 5 SqlNull (SqlReal 32) (SqlReal 20)]
               false false None None in
  (exists v, render (fun _ => None) good = Ok v /\
             chartData v = reverse (tests good) /\
             length (history v) = length (tests good) /\
             banner v = error good /\
             run_disabled v = isRunning good) /\
  (exists e, render (fun _ => None) bad = Raise e).
Proof.
  intros good bad. split.
  - apply (render_succeeds_iff (fun _ => None) good).
    repeat constructor; vm_compute; eauto.
  - apply (render_succeeds_iff (fun _ => None) bad).
    intros H. apply Forall_cons in H as [([x Hx] & _) _]. vm_compute in Hx. discriminate.
Defined.

Lemma zero_duration_breaks_render_witness :
  let s := mkSys (mkState [] false false None None) (mkTable [] 0) 0 in
  (exists x, head (tests (ui (run_test frozen_download s))) = Some x /\
             download_mbps x = SqlNull) /\
  exists e, render (fun _ => None) (ui (run_test frozen_download s)) = Raise e.
Proof.
  intros s. apply (zero_duration_breaks_render (fun _ => None) frozen_download s).
  - reflexivity.
  - repeat split.
  - vm_compute. reflexivity.
  - vm_compute. reflexivity.
Defined.
